(** * harvest-profit-pdf: the table layout engine and the page footer

    A shallow embedding of [src/PDFTable.js] and [src/BasicPDFFooter.js].

    - JavaScript values are an inductive type; numbers are IEEE-754 binary64,
      i.e. Rocq's primitive floats, so [fontSize * 1.2] below is the very
      multiplication the engine performs.
    - Plain objects (cell specifications, constructor options, margins) are
      finite maps from property names to values; a missing property reads
      as [undefined].
    - The PDFKit document and the builder are outside the repository: they
      are an interface ([Surface]).  Every command sent to them is recorded,
      together with the surface it leaves behind, so that theorems can talk
      about what was drawn, where, and in which order. *)

From Stdlib Require Import Floats.PrimFloat Floats.FloatOps Floats.FloatAxioms Uint63 ZArith
  String List Lia.
From stdpp Require Import base strings gmap list pretty.
Import ListNotations.

Set Warnings "-inexact-float,-register-all".
Set Default Proof Using "Type*".

(* ===================================================================== *)
(** ** JavaScript values *)
(* ===================================================================== *)

Inductive value :=
| VUndefined
| VNull
| VBool (b : bool)
| VNum (f : float)
| VStr (s : string)
| VObj (o : gmap string value).

(** [o.k]: reading a property of a plain object. *)
Definition prop (o : gmap string value) (k : string) : value :=
  default VUndefined (o !! k).

(** [v.k] where [v] is known not to be [undefined]/[null]: primitives have
    none of the property names used by the engine. *)
Definition member (v : value) (k : string) : value :=
  match v with
  | VObj o => prop o k
  | _ => VUndefined
  end.

Definition is_nan (f : float) : bool := negb (PrimFloat.eqb f f).

(** ToBoolean. *)
Definition truthy (v : value) : bool :=
  match v with
  | VUndefined | VNull => false
  | VBool b => b
  | VNum f => negb (PrimFloat.eqb f 0 || is_nan f)
  | VStr s => negb (String.eqb s "")
  | VObj _ => true
  end.

(** [a || b]. *)
Definition or_else (a b : value) : value := if truthy a then a else b.

(** [v == null]. *)
Definition nullish (v : value) : bool :=
  match v with
  | VUndefined | VNull => true
  | _ => false
  end.

(** [v === 'literal']. *)
Definition is_string (v : value) (lit : string) : bool :=
  match v with
  | VStr s => String.eqb s lit
  | _ => false
  end.

(** [typeof v]. *)
Definition typeof (v : value) : string :=
  match v with
  | VUndefined => "undefined"
  | VNull => "object"
  | VBool _ => "boolean"
  | VNum _ => "number"
  | VStr _ => "string"
  | VObj _ => "object"
  end.

(** An integer counter (an array length, a loop index) as a number. Exact
    below 2^53, which bounds every array length. *)
Definition num_of_Z (z : Z) : float :=
  if (z <? 0)%Z then PrimFloat.opp (PrimFloat.of_uint63 (Uint63.of_Z (- z)))
  else PrimFloat.of_uint63 (Uint63.of_Z z).

Definition num_of_nat (n : nat) : float := num_of_Z (Z.of_nat n).

(** Built-ins of the host whose results the engine uses: Number::toString,
    StringToNumber and [Math.tan]. *)
Class Host := {
  number_to_string : float -> string;
  string_to_number : string -> float;
  Math_tan : float -> float
}.

Definition Math_PI : float := 3.141592653589793%float.

Section Runtime.

Context `{Host}.

(** ToNumber. *)
Definition to_number (v : value) : float :=
  match v with
  | VUndefined => PrimFloat.nan
  | VNull => 0%float
  | VBool b => if b then 1%float else 0%float
  | VNum f => f
  | VStr s => string_to_number s
  | VObj _ => PrimFloat.nan
  end.

(** ToString, as a template literal applies it. *)
Definition to_string (v : value) : string :=
  match v with
  | VUndefined => "undefined"
  | VNull => "null"
  | VBool b => if b then "true" else "false"
  | VNum f => number_to_string f
  | VStr s => s
  | VObj _ => "[object Object]"
  end.

(** [a + b]: concatenation as soon as one side is a string (or an object,
    whose primitive is a string), numeric addition otherwise. *)
Definition js_add (a b : value) : value :=
  match a, b with
  | VStr _, _ | VObj _, _ | _, VStr _ | _, VObj _ =>
      VStr (String.append (to_string a) (to_string b))
  | _, _ => VNum (to_number a + to_number b)
  end.

Definition js_sub (a b : value) : value := VNum (to_number a - to_number b).
Definition js_mul (a b : value) : value := VNum (to_number a * to_number b).
Definition js_div (a b : value) : value := VNum (to_number a / to_number b).
Definition js_neg (a : value) : value := VNum (- to_number a).

(** [v < n] and [v > n] against a number literal: always numeric. *)
Definition lt_num (v : value) (n : float) : bool := PrimFloat.ltb (to_number v) n.
Definition gt_num (v : value) (n : float) : bool := PrimFloat.ltb n (to_number v).

(** [text === undefined || text === null || text.length < 1].  A string's
    length is a non-negative integer, so its comparison with 1 is the
    integer one; booleans and numbers have no [length]. *)
Definition text_is_empty (text : value) : bool :=
  match text with
  | VUndefined | VNull => true
  | VStr s => (String.length s <? 1)%nat
  | VObj o => lt_num (prop o "length") 1
  | VBool _ | VNum _ => lt_num VUndefined 1
  end.

End Runtime.

(* ===================================================================== *)
(** ** The drawing surface *)
(* ===================================================================== *)

Module Opt.
(** The options object of a [doc.text] call; [None] is a key left out. *)
Record t := Make {
  lineBreak : option value;
  align : option value;
  lineGap : option value;
  width : option value;
  height : option value;
  ellipsis : option value
}.
End Opt.

Module Doc.
(** Commands sent to the document and to the builder. *)
Inductive call :=
| save
| restore
| fillColor (color : value)
| font (name : value)
| fontSize (size : value)
| transform (m11 m12 m21 m22 dx dy : value)
| text (str : value) (position : option (value * value)) (options : option Opt.t)
| moveTo (x y : value)
| lineWidth (w : value)
| lineTo (x y : value)
| strokeColor (color : value)
| stroke
| switchToPage (n : value)
| set_y (y : value)
| addPageIfNeeded (page count : value).
End Doc.

(** What the engine needs from [builder] and [builder.doc]. *)
Class Surface (S : Type) := {
  doc_x : S -> value;
  doc_y : S -> value;
  bufferedPageCount : S -> value;
  pageLeft : S -> value;
  contentWidth : S -> value;
  perform : Doc.call -> S -> S;
  reply : Doc.call -> S -> value
}.

(* ===================================================================== *)
(** ** PDFTable *)
(* ===================================================================== *)

(** A column specification: [{ header, rows, width }]. *)
Record Column := {
  col_header : gmap string value;
  col_rows : list (gmap string value);
  col_width : value
}.

(** The fields the constructor sets. *)
Record PDFTable := {
  cellAlign : value;
  cellColor : value;
  cellBorderColor : value;
  cellBorderWidth : value;
  cellFont : value;
  cellItalic : value;
  cellFontSize : value;
  headerAlign : value;
  headerColor : value;
  headerBorderColor : value;
  headerBorderStyle : value;
  headerBorderWidth : value;
  headerFont : value;
  headerItalic : value;
  headerFontSize : value;
  margins : value;
  cellEmptyColor : value;
  cellEmptyFontSize : value;
  cellEmptyItalic : value;
  cellEmptyText : value;
  headerEmptyColor : value;
  headerEmptyFontSize : value;
  headerEmptyItalic : value;
  headerEmptyText : value;
  headerAllowWrap : value;
  cellAllowWrap : value;
  skewFactor : value;
  columns : list Column
}.

(** [this.cellBorderStyle] is read by [_addRow] but no line of the class
    assigns it: the read yields [undefined]. *)
Definition cellBorderStyle (this : PDFTable) : value := VUndefined.

Definition default_margins : gmap string value :=
  <["bottom" := VNum 30]> (<["left" := VNum 0]> (<["right" := VNum 0]>
    (<["top" := VNum 0]> ∅))).

Section Table.

Context `{Host}.

(** PDFTable.js, lines 79-111. *)
Definition constructor (columns : list Column) (options : gmap string value)
  : PDFTable :=
  let cellItalic := or_else (prop options "cellItalic") (VBool false) in
  let cellFontSize := or_else (prop options "cellFontSize") (VNum 14) in
  let headerItalic := or_else (prop options "headerItalic") (VBool false) in
  let headerFontSize := or_else (prop options "headerFontSize") (VNum 14) in
  {| cellAlign := or_else (prop options "cellAlign") (VStr "left");
     cellColor := or_else (prop options "cellColor") (VStr "#222");
     cellBorderColor := or_else (prop options "headerColor") (VStr "#ccc");
     cellBorderWidth := or_else (prop options "cellBorderWidth") (VNum 1);
     cellFont := or_else (prop options "cellFont") (VStr "Helvetica");
     cellItalic := cellItalic;
     cellFontSize := cellFontSize;
     headerAlign := or_else (prop options "headerAlign") (VStr "left");
     headerColor := or_else (prop options "headerColor") (VStr "#000");
     headerBorderColor := or_else (prop options "headerColor") (VStr "#000");
     headerBorderStyle := or_else (prop options "headerBorderStyle") (VStr "bottom");
     headerBorderWidth := or_else (prop options "headerBorderWidth") (VNum 1.5);
     headerFont := or_else (prop options "headerFont") (VStr "Helvetica-Bold");
     headerItalic := headerItalic;
     headerFontSize := headerFontSize;
     margins := or_else (prop options "margins") (VObj default_margins);
     cellEmptyColor := or_else (prop options "cellEmptyColor") (VStr "#FFFFFF");
     cellEmptyFontSize := or_else (prop options "cellEmptyFontSize") cellFontSize;
     cellEmptyItalic := or_else (prop options "cellEmptyItalic") cellItalic;
     cellEmptyText := or_else (prop options "cellEmptyText") (VStr "none");
     headerEmptyColor := or_else (prop options "headerEmptyColor") (VStr "#FFFFFF");
     headerEmptyFontSize := or_else (prop options "headerEmptyFontSize") headerFontSize;
     headerEmptyItalic := or_else (prop options "headerEmptyItalic") headerItalic;
     headerEmptyText := or_else (prop options "headerEmptyText") (VStr "none");
     headerAllowWrap := or_else (prop options "headerAllowWrap") (VBool false);
     cellAllowWrap := or_else (prop options "cellAllowWrap") (VBool false);
     skewFactor := VNum (Math_tan ((-15 * Math_PI) / 180));
     columns := columns |}.

Context {S : Type} `{Surface S}.

(** One recorded command: what was called, what it returned, and the
    surface afterwards. *)
Record event := Ev {
  called : Doc.call;
  returned : value;
  after : S
}.

(** The fields [addToPDF] and its helpers assign on [this], next to the
    surface ([this.builder] and its [doc]). *)
Record state := State {
  surface : S;
  currentPage : value;
  currentPosition_x : value;
  currentPosition_y : value;
  startingPosition_x : value;
  startingPosition_y : value;
  startingPage : value;
  columnWidth : value
}.

Record outcome (A : Type) := Outcome {
  result : A;
  final : state;
  events : list event
}.
Arguments Outcome {A} _ _ _.
Arguments result {A} _.
Arguments final {A} _.
Arguments events {A} _.

(** State passing with a log of the commands sent to the surface. *)
Definition M (A : Type) : Type := state -> outcome A.

Definition ret {A} (a : A) : M A := fun st => Outcome a st [].

Definition bind {A B} (m : M A) (k : A -> M B) : M B :=
  fun st =>
    let r := m st in
    let r' := k (result r) (final r) in
    Outcome (result r') (final r') (events r ++ events r').

Notation "'let*' x ':=' m 'in' k" := (bind m (fun x => k))
  (at level 10, x name, m at level 100, k at level 200, only parsing).
Notation "m ;; k" := (bind m (fun _ => k))
  (at level 100, k at level 200, right associativity, only parsing).

(** Reading a field of [this], [doc] or [builder]. *)
Definition read {A} (f : state -> A) : M A := fun st => Outcome (f st) st [].

(** Assigning a field of [this]. *)
Definition assign (f : state -> state) : M unit := fun st => Outcome tt (f st) [].

(** Sending a command to the surface. *)
Definition send (c : Doc.call) : M value :=
  fun st =>
    let s' := perform c (surface st) in
    let v := reply c (surface st) in
    Outcome v
      (State s' (currentPage st) (currentPosition_x st) (currentPosition_y st)
         (startingPosition_x st) (startingPosition_y st) (startingPage st)
         (columnWidth st))
      [Ev c v s'].

Definition when (b : bool) (m : M unit) : M unit := if b then m else ret tt.

Fixpoint for_each {A} (l : list A) (body : A -> M unit) : M unit :=
  match l with
  | [] => ret tt
  | a :: l' => body a ;; for_each l' body
  end.

Definition set_currentPage (v : value) (st : state) : state :=
  State (surface st) v (currentPosition_x st) (currentPosition_y st)
    (startingPosition_x st) (startingPosition_y st) (startingPage st)
    (columnWidth st).

Definition set_currentPosition (x y : value) (st : state) : state :=
  State (surface st) (currentPage st) x y
    (startingPosition_x st) (startingPosition_y st) (startingPage st)
    (columnWidth st).

Definition set_startingPosition (x y : value) (st : state) : state :=
  State (surface st) (currentPage st) (currentPosition_x st)
    (currentPosition_y st) x y (startingPage st) (columnWidth st).

Definition set_startingPage (v : value) (st : state) : state :=
  State (surface st) (currentPage st) (currentPosition_x st)
    (currentPosition_y st) (startingPosition_x st) (startingPosition_y st) v
    (columnWidth st).

Definition set_columnWidth (v : value) (st : state) : state :=
  State (surface st) (currentPage st) (currentPosition_x st)
    (currentPosition_y st) (startingPosition_x st) (startingPosition_y st)
    (startingPage st) v.

Variable this : PDFTable.

(** PDFTable.js, lines 140-142: [this.builder.contentWidth()]. *)
Definition width : M value := read (fun st => contentWidth (surface st)).

(** PDFTable.js, lines 318-332. *)
Definition _columnWidth (width_ : value) : M value :=
  if (length (columns this) <? 2)%nat then width
  else if nullish width_ then
    let* w := width in ret (js_div w (VNum (num_of_nat (length (columns this)))))
  else if lt_num width_ 1 then
    let* w := width in ret (js_mul w width_)
  else ret width_.

(** PDFTable.js, lines 334-337. *)
Definition _headerLineGap (header : gmap string value) : value :=
  let fontSize := or_else (prop header "fontSize") (headerFontSize this) in
  js_mul fontSize (VNum 1.2).

(** PDFTable.js, lines 339-342. *)
Definition _rowLineGap (row : gmap string value) : value :=
  let fontSize := or_else (prop row "fontSize") (cellFontSize this) in
  js_mul fontSize (VNum 1.07).

(** The border under a header or a row, PDFTable.js lines 226-231 and
    304-309: the arguments of each call of the chain are read from [doc]
    when that call is made. *)
Definition strokeBorder (fontSize borderWidth width_ borderColor : value)
    (factor : float) : M unit :=
  let* x := read (fun st => doc_x (surface st)) in
  let* y := read (fun st => doc_y (surface st)) in
  send (Doc.moveTo x (js_sub y (js_mul fontSize (VNum factor)))) ;;
  send (Doc.lineWidth borderWidth) ;;
  let* x := read (fun st => doc_x (surface st)) in
  let* y := read (fun st => doc_y (surface st)) in
  send (Doc.lineTo (js_add x width_) (js_sub y (js_mul fontSize (VNum factor)))) ;;
  send (Doc.strokeColor borderColor) ;;
  send Doc.stroke ;;
  ret tt.

(** PDFTable.js, lines 172-232. *)
Definition _addHeader (column : Column) : M unit :=
  let header := col_header column in
  let align := or_else (prop header "align") (headerAlign this) in
  let borderColor := or_else (prop header "borderColor") (headerBorderColor this) in
  let borderWidth := or_else (prop header "borderWidth") (headerBorderWidth this) in
  let color := or_else (prop header "color") (headerColor this) in
  let font := or_else (prop header "font") (headerFont this) in
  let italic := or_else (prop header "italic") (headerItalic this) in
  let fontSize := or_else (prop header "fontSize") (headerFontSize this) in
  let lineGap := _headerLineGap header in
  let* position_x := read currentPosition_x in
  let* position_y := read currentPosition_y in
  let* width_ := read columnWidth in
  let text := prop header "text" in
  let emptyColor := or_else (prop header "emptyColor") (headerEmptyColor this) in
  let emptyFontSize := or_else (prop header "emptyFontSize") (headerEmptyFontSize this) in
  let emptyItalic := or_else (prop header "emptyItalic") (headerEmptyItalic this) in
  let emptyText := or_else (prop header "emptyText") (headerEmptyText this) in
  let allowWrap := or_else (prop header "allowWrap") (headerAllowWrap this) in
  let empty := text_is_empty text in
  let color := if empty then emptyColor else color in
  let fontSize := if empty then emptyFontSize else fontSize in
  let italic := if empty then emptyItalic else italic in
  let text := if empty then emptyText else text in
  send Doc.save ;;
  send (Doc.fillColor color) ;;
  send (Doc.font font) ;;
  send (Doc.fontSize fontSize) ;;
  when (truthy italic)
    (send (Doc.transform (VNum 1) (VNum 0) (skewFactor this) (VNum 1)
             (js_add (js_mul (js_neg position_y) (skewFactor this)) (VNum 1))
             (VNum 0)) ;;
     ret tt) ;;
  (if truthy allowWrap then
     send (Doc.text text (Some (position_x, position_y))
             (Some (Opt.Make (Some (VBool false)) (Some align) (Some lineGap)
                      (Some width_) None None)))
   else
     send (Doc.text text (Some (position_x, position_y))
             (Some (Opt.Make (Some (VBool false)) (Some align) (Some lineGap)
                      (Some width_) (Some lineGap) (Some (VBool true)))))) ;;
  send Doc.restore ;;
  strokeBorder fontSize borderWidth width_ borderColor 0.85.

(** PDFTable.js, lines 235-244: the page check before a row, and the
    header repeated on a new page. *)
Definition repeatHeaderIfNeeded (column : Column) : M unit :=
  let* pageCount := read (fun st => bufferedPageCount (surface st)) in
  let* page := read currentPage in
  let* newPage := send (Doc.addPageIfNeeded page pageCount) in
  when (truthy newPage)
    (let* page := read currentPage in
     assign (set_currentPage (js_add page (VNum 1))) ;;
     let* y := read (fun st => doc_y (surface st)) in
     let* x := read currentPosition_x in
     assign (set_currentPosition x y) ;;
     _addHeader column).

(** PDFTable.js, lines 246-309: the cell itself. *)
Definition drawCell (row : gmap string value) : M unit :=
  let align := or_else (prop row "align") (cellAlign this) in
  let borderColor := or_else (prop row "borderColor") (cellBorderColor this) in
  let borderStyle := or_else (prop row "borderStyle") (cellBorderStyle this) in
  let borderWidth := or_else (prop row "borderWidth") (cellBorderWidth this) in
  let italic := or_else (prop row "italic") (cellItalic this) in
  let color := or_else (prop row "color") (cellColor this) in
  let font := or_else (prop row "font") (cellFont this) in
  let fontSize := or_else (prop row "fontSize") (cellFontSize this) in
  let allowWrap := or_else (prop row "allowWrap") (cellAllowWrap this) in
  let emptyColor := or_else (prop row "emptyColor") (cellEmptyColor this) in
  let emptyFontSize := or_else (prop row "emptyFontSize") (cellEmptyFontSize this) in
  let emptyItalic := or_else (prop row "emptyItalic") (cellEmptyItalic this) in
  let emptyText := or_else (prop row "emptyText") (cellEmptyText this) in
  let text := prop row "text" in
  let lineGap := _rowLineGap row in
  let* width_ := read columnWidth in
  let empty := text_is_empty text in
  let color := if empty then emptyColor else color in
  let fontSize := if empty then emptyFontSize else fontSize in
  let italic := if empty then emptyItalic else italic in
  let text := if empty then emptyText else text in
  send Doc.save ;;
  send (Doc.fillColor color) ;;
  send (Doc.font font) ;;
  send (Doc.fontSize fontSize) ;;
  when (truthy italic)
    (let* y := read (fun st => doc_y (surface st)) in
     send (Doc.transform (VNum 1) (VNum 0) (skewFactor this) (VNum 1)
             (js_add (js_mul (js_neg y) (skewFactor this)) (VNum 1))
             (VNum 0)) ;;
     ret tt) ;;
  (if truthy allowWrap then
     send (Doc.text text None
             (Some (Opt.Make (Some (VBool false)) (Some align) (Some lineGap)
                      (Some width_) None None)))
   else
     send (Doc.text text None
             (Some (Opt.Make (Some (VBool false)) (Some align) (Some lineGap)
                      (Some width_) (Some lineGap) (Some (VBool true)))))) ;;
  send Doc.restore ;;
  if is_string borderStyle "none" then ret tt
  else strokeBorder fontSize borderWidth width_ borderColor 0.7.

(** PDFTable.js, lines 234-310. *)
Definition _addRow (column : Column) (row : gmap string value) : M unit :=
  repeatHeaderIfNeeded column ;;
  drawCell row.

(** PDFTable.js, lines 150-163. *)
Definition _addColumn (column : Column) : M unit :=
  let* w := _columnWidth (col_width column) in
  assign (set_columnWidth w) ;;
  _addHeader column ;;
  for_each (col_rows column) (fun row => _addRow column row) ;;
  let* x := read currentPosition_x in
  let* y := read currentPosition_y in
  let* w := read columnWidth in
  assign (set_currentPosition (js_add x w) y).

(** PDFTable.js, lines 118-124: what [addToPDF] records before the loop. *)
Definition recordStart : M unit :=
  let* count := read (fun st => bufferedPageCount (surface st)) in
  assign (set_currentPage (js_sub count (VNum 1))) ;;
  let* left := read (fun st => pageLeft (surface st)) in
  let* y := read (fun st => doc_y (surface st)) in
  assign (set_currentPosition left y) ;;
  let* left := read (fun st => pageLeft (surface st)) in
  let* y := read (fun st => doc_y (surface st)) in
  assign (set_startingPosition left y) ;;
  let* count := read (fun st => bufferedPageCount (surface st)) in
  assign (set_startingPage (js_sub count (VNum 1))).

(** PDFTable.js, lines 127-129: the reset at the top of the loop body. *)
Definition resetCursor : M unit :=
  let* page := read startingPage in
  assign (set_currentPage page) ;;
  let* y := read startingPosition_y in
  let* x := read currentPosition_x in
  assign (set_currentPosition x y) ;;
  let* page := read currentPage in
  send (Doc.switchToPage page) ;;
  ret tt.

(** PDFTable.js, lines 127-130: the body of the loop over the columns. *)
Definition layout (column : Column) : M unit :=
  resetCursor ;;
  _addColumn column.

(** PDFTable.js, lines 117-134. *)
Definition addToPDF : M unit :=
  recordStart ;;
  for_each (columns this) layout ;;
  let* y := read (fun st => doc_y (surface st)) in
  send (Doc.set_y (js_add y (member (margins this) "bottom"))) ;;
  ret tt.

End Table.

Arguments event : clear implicits.
Arguments state : clear implicits.
Arguments outcome : clear implicits.
Arguments M : clear implicits.
Arguments Outcome {S A} _ _ _.
Arguments result {S A} _.
Arguments final {S A} _.
Arguments events {S A} _.

(* ===================================================================== *)
(** ** BasicPDFFooter *)
(* ===================================================================== *)

Module Footer.

(** [options.data]: one value, or an array of them. *)
Inductive data_option :=
| Single (v : value)
| Array (l : list value).

Record Options := {
  opt_includePagination : value;
  opt_data : data_option
}.

(** What [onPageAdded] reads from the builder it is handed. *)
Record Builder := {
  page_width : value;
  page_height : value;
  margins : gmap string value;
  builder_currentPage : value;
  title : value
}.

Record BasicPDFFooter := {
  includePagination : bool;
  currentPage : value;
  data : list value;
  width : value;
  height : value;
  docTitle : value;
  pdfBuilder : option Builder
}.

(** Commands sent to [doc], or a TypeError ([None]). *)
Definition W (A : Type) : Type := option (A * list Doc.call).

Definition ret {A} (a : A) : W A := Some (a, []).

Definition bind {A B} (m : W A) (k : A -> W B) : W B :=
  match m with
  | None => None
  | Some (a, l) =>
      match k a with
      | None => None
      | Some (b, l') => Some (b, l ++ l')
      end
  end.

Notation "'let*' x ':=' m 'in' k" := (bind m (fun x => k))
  (at level 10, x name, m at level 100, k at level 200, only parsing).
Notation "m ;; k" := (bind m (fun _ => k))
  (at level 100, k at level 200, right associativity, only parsing).

Definition send (c : Doc.call) : W unit := Some (tt, [c]).

Definition TypeError {A} : W A := None.

(** BasicPDFFooter.js, lines 2-15. *)
Definition constructor (options : Options) : BasicPDFFooter :=
  let ip := opt_includePagination options in
  let off :=
    negb (nullish ip) && match ip with VBool false => true | _ => false end in
  let data :=
    match opt_data options with
    | Single v => if truthy v then [v] else []
    | Array l => l
    end in
  {| includePagination := negb off;
     currentPage := if off then VUndefined else VNum 1;
     data := data;
     width := VUndefined;
     height := VUndefined;
     docTitle := VUndefined;
     pdfBuilder := None |}.

Section Rendering.

Context `{Host}.

(** [(this.height + margins.bottom) - (lineHeight * fontSize)] with
    [fontSize = 9]; [lineHeight] is an integer counter. *)
Definition line_y (height : value) (margins : gmap string value)
    (lineHeight : Z) : value :=
  js_sub (js_add height (prop margins "bottom"))
         (js_mul (VNum (num_of_Z lineHeight)) (VNum 9)).

(** [v !== undefined]. *)
Definition defined (v : value) : bool :=
  match v with
  | VUndefined => false
  | _ => true
  end.

(** BasicPDFFooter.js, lines 25-43: the loop, by recursion on the entries
    still to come.  [typeof null] is ['object'] too, and reading [.value]
    of [null] throws. *)
Fixpoint footerLines (height : value) (margins : gmap string value)
    (entries : list value) (lineHeight : Z) : W unit :=
  match entries with
  | [] => ret tt
  | d :: rest =>
      if String.eqb (typeof d) "string" then
        send (Doc.text d
                (Some (prop margins "left", line_y height margins lineHeight))
                None) ;;
        footerLines height margins rest (lineHeight - 1)
      else if String.eqb (typeof d) "object" then
        match d with
        | VObj o =>
            if defined (prop o "value") && defined (prop o "label") then
              send (Doc.font (VStr "Helvetica-Bold")) ;;
              send (Doc.text
                      (VStr (String.append (to_string (prop o "label")) ":"))
                      (Some (prop margins "left",
                             line_y height margins lineHeight))
                      (Some (Opt.Make (Some (VBool false)) None None None None
                               None))) ;;
              send (Doc.font (VStr "Helvetica")) ;;
              send (Doc.text (prop o "value") None None) ;;
              footerLines height margins rest (lineHeight - 1)
            else footerLines height margins rest lineHeight
        | _ => TypeError
        end
      else footerLines height margins rest lineHeight
  end.

(** The builder's margins; reading them before any page was added is a
    TypeError. *)
Definition builder_margins (this : BasicPDFFooter) : W (gmap string value) :=
  match pdfBuilder this with
  | Some b => ret (margins b)
  | None => TypeError
  end.

(** BasicPDFFooter.js, lines 17-44. *)
Definition addFooterData (this : BasicPDFFooter) : W unit :=
  let* margins := builder_margins this in
  let lineHeight := (Z.of_nat (length (data this)) - 1)%Z in
  send (Doc.font (VStr "Helvetica")) ;;
  send (Doc.fontSize (VNum 9)) ;;
  footerLines (height this) margins (data this) lineHeight.

(** [this.docTitle.length > 0].  A string's length is a non-negative
    integer, compared as such; [undefined] and [null] have no properties. *)
Definition title_given (docTitle : value) : W bool :=
  match docTitle with
  | VUndefined | VNull => TypeError
  | VStr s => ret (0 <? String.length s)%nat
  | VObj o => ret (gt_num (prop o "length") 0)
  | VBool _ | VNum _ => ret (gt_num VUndefined 0)
  end.

(** BasicPDFFooter.js, lines 46-56. *)
Definition addPagination (this : BasicPDFFooter) : W unit :=
  let* margins := builder_margins this in
  let text := currentPage this in
  send (Doc.fontSize (VNum 9)) ;;
  let* given := title_given (docTitle this) in
  let text :=
    if given then
      VStr (String.append (to_string (docTitle this))
              (String.append " - " (to_string text)))
    else text in
  send (Doc.text text
          (Some (prop margins "left", js_add (height this) (prop margins "bottom")))
          (Some (Opt.Make None (Some (VStr "right")) None (Some (width this))
                   None None))).

(** BasicPDFFooter.js, lines 58-68; the result is [this] as the call
    leaves it. *)
Definition onPageAdded (this : BasicPDFFooter) (pdfBuilder : Builder)
    : W BasicPDFFooter :=
  let m := margins pdfBuilder in
  let this :=
    {| includePagination := includePagination this;
       currentPage := builder_currentPage pdfBuilder;
       data := data this;
       width := js_sub (js_sub (page_width pdfBuilder) (prop m "left"))
                       (prop m "right");
       height := js_sub (js_sub (page_height pdfBuilder) (prop m "top"))
                        (prop m "bottom");
       docTitle := title pdfBuilder;
       pdfBuilder := Some pdfBuilder |} in
  addFooterData this ;;
  (if includePagination this then addPagination this else ret tt) ;;
  ret this.

End Rendering.

End Footer.

(* ===================================================================== *)
(** ** A host and a surface to run the engine on *)
(* ===================================================================== *)

Module Sample.

(** Decimal digits of an integer-valued number, as Number::toString prints
    a page counter; the fraction of any other number is dropped. *)
Definition digits (f : float) : string :=
  match Prim2SF f with
  | SpecFloat.S754_zero _ => "0"
  | SpecFloat.S754_infinity s => if s then "-Infinity" else "Infinity"
  | SpecFloat.S754_nan => "NaN"
  | SpecFloat.S754_finite s m e =>
      let z := if (0 <=? e)%Z then (Zpos m * 2 ^ e)%Z
               else (Zpos m / 2 ^ (- e))%Z in
      String.append (if s then "-" else "") (pretty z)
  end.

Definition host : Host := {|
  number_to_string := digits;
  string_to_number := fun _ => PrimFloat.nan;
  Math_tan := fun _ => (-0.2679491924311227)%float
|}.

(** A sheet of paper: a pen, a page counter, and the y below which a new
    page is needed.  Text moves the pen down by its line gap; a new page
    puts it back at the top. *)
Record paper := Paper {
  pen_x : float;
  pen_y : float;
  pages : Z;
  bottom : float;
  left : float;
  content : float
}.

Definition gap (options : option Opt.t) : float :=
  match options with
  | Some o => match Opt.lineGap o with Some (VNum g) => g | _ => 0%float end
  | None => 0%float
  end.

Definition paper_perform (c : Doc.call) (p : paper) : paper :=
  match c with
  | Doc.text _ (Some (VNum x, VNum y)) o =>
      Paper x (y + gap o)%float (pages p) (bottom p) (left p) (content p)
  | Doc.text _ _ o =>
      Paper (pen_x p) (pen_y p + gap o)%float (pages p) (bottom p) (left p)
        (content p)
  | Doc.addPageIfNeeded _ _ =>
      if PrimFloat.ltb (bottom p) (pen_y p)
      then Paper (pen_x p) 0%float (pages p + 1)%Z (bottom p) (left p) (content p)
      else p
  | Doc.set_y (VNum y) =>
      Paper (pen_x p) y (pages p) (bottom p) (left p) (content p)
  | _ => p
  end.

Definition paper_reply (c : Doc.call) (p : paper) : value :=
  match c with
  | Doc.addPageIfNeeded _ _ => VBool (PrimFloat.ltb (bottom p) (pen_y p))
  | _ => VUndefined
  end.

Definition paper_surface : Surface paper := {|
  doc_x := fun p => VNum (pen_x p);
  doc_y := fun p => VNum (pen_y p);
  bufferedPageCount := fun p => VNum (num_of_Z (pages p));
  pageLeft := fun p => VNum (left p);
  contentWidth := fun p => VNum (content p);
  perform := paper_perform;
  reply := paper_reply
|}.

#[local] Existing Instance host.
#[local] Existing Instance paper_surface.

(** The state of a table that has not been rendered yet. *)
Definition fresh (p : paper) : state paper :=
  State p VUndefined VUndefined VUndefined VUndefined VUndefined VUndefined
    VUndefined.

Definition cell (text : string) : gmap string value :=
  <["text" := VStr text]> ∅.

(** Two columns of three rows. *)
Definition ids : Column :=
  Build_Column (cell "ID") [cell "1"; cell "2"; cell "3"] VUndefined.

Definition names : Column :=
  Build_Column (cell "Name") [cell "Billy"; cell "Bob"; cell "Suzy"]
    (VNum 0.25).

Definition table : PDFTable := constructor [ids; names] ∅.

(** A letter page with the pen at the top of the content, one page so
    far. *)
Definition letter : paper := Paper 36 0 1 700 36 500.

(** The same page with the pen below the bottom: the next page check asks
    for a page. *)
Definition full : paper := Paper 36 710 1 700 36 500.

(** A column being laid out at x = 36. *)
Definition midway (p : paper) : state paper :=
  State p (VNum 0) (VNum 36) (VNum (pen_y p)) (VNum 36) (VNum 0) (VNum 0)
    (VNum 250).

(** A header without text, with an empty-variant font size of its own. *)
Definition untitled : Column :=
  Build_Column (<["emptyFontSize" := VNum 10]> (cell "")) [] VUndefined.

(** The footer of the report: a line, a label with its value, and the
    builder on page 3. *)
Definition total : gmap string value :=
  <["label" := VStr "Total"]> (<["value" := VStr "42"]> ∅).

Definition footer : Footer.BasicPDFFooter :=
  Footer.constructor
    (Footer.Build_Options VUndefined
       (Footer.Array [VStr "Generated 2024-01-01"; VObj total])).

Definition report_margins : gmap string value :=
  <["top" := VNum 36]> (<["bottom" := VNum 36]> (<["left" := VNum 36]>
    (<["right" := VNum 36]> ∅))).

Definition report : Footer.Builder :=
  Footer.Build_Builder (VNum 612) (VNum 792) report_margins (VNum 3)
    (VStr "Report").

End Sample.

(* ===================================================================== *)
(** ** Reading a log *)
(* ===================================================================== *)

(** The renders and page checks of a log.  A header is the only text drawn
    at an explicit position, a row cell the only text left to the
    document's own cursor; a page check is kept with its answer and with
    the [doc.y] it leaves, the top of the new page when one was added. *)
Inductive mark :=
| MHeader (x y : value)
| MCheck (needed : bool) (y_after : value)
| MRow.

Definition mark_of {S : Type} `{Surface S} (e : event S) : option mark :=
  match called e with
  | Doc.text _ (Some (x, y)) _ => Some (MHeader x y)
  | Doc.text _ None _ => Some MRow
  | Doc.addPageIfNeeded _ _ =>
      Some (MCheck (truthy (returned e)) (doc_y (after e)))
  | _ => None
  end.

Definition marks {S : Type} `{Surface S} (log : list (event S)) : list mark :=
  omap mark_of log.

(** What one row leaves in a log when drawn with its cursor at [x]. *)
Definition row_marks (x : value) (check : bool * value) : list mark :=
  MCheck check.1 check.2
    :: (if check.1 then [MHeader x check.2] else []) ++ [MRow].

(** What one column leaves: its header at [(x, y)], then its rows. *)
Definition column_marks (x y : value) (checks : list (bool * value))
  : list mark :=
  MHeader x y :: concat (map (row_marks x) checks).

Definition calls {S : Type} (log : list (event S)) : list Doc.call :=
  map called log.

Definition is_stroke (c : Doc.call) : bool :=
  match c with Doc.stroke => true | _ => false end.

Definition strokes (l : list Doc.call) : nat :=
  length (filter (fun c => is_stroke c = true) l).

(** The fields of [this] other than the surface. *)
Definition cursor {S : Type} (st : state S) : value * value * value :=
  (currentPage st, currentPosition_x st, currentPosition_y st).

Definition origin {S : Type} (st : state S) : value * value * value :=
  (startingPage st, startingPosition_x st, startingPosition_y st).

(** What a sequence of commands sets before its first text, and that text. *)
Definition fill_of (l : list Doc.call) : option value :=
  head (omap (fun c => match c with Doc.fillColor v => Some v | _ => None end) l).

Definition size_of (l : list Doc.call) : option value :=
  head (omap (fun c => match c with Doc.fontSize v => Some v | _ => None end) l).

Definition slanted (l : list Doc.call) : bool :=
  existsb (fun c => match c with Doc.transform _ _ _ _ _ _ => true | _ => false end) l.

Definition text_of (l : list Doc.call) : option value :=
  head (omap (fun c => match c with Doc.text v _ _ => Some v | _ => None end) l).

Definition gap_of (l : list Doc.call) : option value :=
  head (omap (fun c => match c with
                       | Doc.text _ _ (Some o) => Some (Opt.lineGap o)
                       | Doc.text _ _ None => Some None
                       | _ => None
                       end) l) ≫= id.

Definition stroke_color_of (l : list Doc.call) : option value :=
  last (omap (fun c => match c with Doc.strokeColor v => Some v | _ => None end) l).

(** The commands from the last [save] on.  In the log of [_addRow] they
    are the cell's: the page check, and the header it may repeat, come
    before. *)
Fixpoint from_last_save (l : list Doc.call) : list Doc.call :=
  match l with
  | [] => []
  | c :: l' =>
      match from_last_save l' with
      | [] => match c with Doc.save => c :: l' | _ => [] end
      | later => later
      end
  end.

(** The pages the document is switched to, in order. *)
Definition switched_pages (l : list Doc.call) : list value :=
  omap (fun c => match c with Doc.switchToPage p => Some p | _ => None end) l.

(** The page check [_addRow] makes in a given state. *)
Definition page_check {S : Type} `{Surface S} (st : state S) : Doc.call :=
  Doc.addPageIfNeeded (currentPage st) (bufferedPageCount (surface st)).

(** A text that is [undefined], [null] or the empty string; a text that is
    a string of at least one character. *)
Definition blank (text : value) : Prop :=
  text = VUndefined \/ text = VNull \/ text = VStr "".

Definition worded (text : value) : Prop :=
  exists s : string, text = VStr s /\ s <> "".

(** *** Expected renderings of borders and footers *)

Section Expected.

Context `{Host} {S : Type} `{Surface S}.



(** A footer entry as the data model has it: a string, or an object with
    both a label and a value. *)
Definition footer_entry (d : value) : Prop :=
  (exists s, d = VStr s) \/
  (exists o, d = VObj o /\
             prop o "value" <> VUndefined /\ prop o "label" <> VUndefined).

(** Where entry [i] of [n] is expected: [n - 1 - i] lines of 9 above
    [height + bottom], where the last entry sits. *)
Definition placed_at (height bottom : value) (n i : nat) : value :=
  js_sub (js_add height bottom)
         (js_mul (VNum (num_of_Z (Z.of_nat n - 1 - Z.of_nat i))) (VNum 9)).

(** What one entry is expected to send: a string is one span; a label and
    a value are the bold label with its colon, not followed by a line
    break, then the value in the normal weight. *)
Definition entry_calls (left y : value) (d : value) : list Doc.call :=
  match d with
  | VStr _ => [Doc.text d (Some (left, y)) None]
  | VObj o =>
      [Doc.font (VStr "Helvetica-Bold");
       Doc.text (VStr (String.append (to_string (prop o "label")) ":"))
         (Some (left, y))
         (Some (Opt.Make (Some (VBool false)) None None None None None));
       Doc.font (VStr "Helvetica");
       Doc.text (prop o "value") None None]
  | _ => []
  end.

(** The text of the pagination line. *)
Definition pagination_text (title page : value) : value :=
  match title with
  | VStr "" => page
  | _ => VStr (String.append (to_string title)
                 (String.append " - " (to_string page)))
  end.

End Expected.

(** *** Further readings of a log *)

(** The depth of [save]/[restore] nesting a sequence of commands ends at
    when it starts at depth [d]; [None] when a [restore] closes nothing or
    a [transform] is applied outside every [save]. *)
Fixpoint nesting (d : nat) (l : list Doc.call) : option nat :=
  match l with
  | [] => Some d
  | Doc.save :: l' => nesting (S d) l'
  | Doc.restore :: l' =>
      match d with
      | O => None
      | S d' => nesting d' l'
      end
  | Doc.transform _ _ _ _ _ _ :: l' =>
      match d with
      | O => None
      | S _ => nesting d l'
      end
  | _ :: l' => nesting d l'
  end.

(** The [width] option of every text, in order. *)
Definition text_widths (l : list Doc.call) : list (option value) :=
  omap (fun c => match c with
                 | Doc.text _ _ (Some o) => Some (Opt.width o)
                 | Doc.text _ _ None => Some None
                 | _ => None
                 end) l.

(** The texts left to the document's own cursor, and the texts drawn at an
    explicit position, in order. *)
Definition flowed_texts (l : list Doc.call) : list value :=
  omap (fun c => match c with Doc.text t None _ => Some t | _ => None end) l.

Definition placed_texts (l : list Doc.call) : list value :=
  omap (fun c => match c with Doc.text t (Some _) _ => Some t | _ => None end) l.

Section ExpectedMore.

Context `{Host} {S : Type} `{Surface S}.

(** The text a row cell, and a header, is drawn with. *)
Definition cell_text (this : PDFTable) (row : gmap string value) : value :=
  if text_is_empty (prop row "text")
  then or_else (prop row "emptyText") (cellEmptyText this)
  else prop row "text".

Definition header_text (this : PDFTable) (header : gmap string value) : value :=
  if text_is_empty (prop header "text")
  then or_else (prop header "emptyText") (headerEmptyText this)
  else prop header "text".

(** The font size a header is drawn with. *)
Definition header_size (this : PDFTable) (header : gmap string value) : value :=
  if text_is_empty (prop header "text")
  then or_else (prop header "emptyFontSize") (headerEmptyFontSize this)
  else or_else (prop header "fontSize") (headerFontSize this).

(** The six last commands of a header: [restore], then the chain that
    strokes its border. *)
Definition header_border_tail (this : PDFTable) (header : gmap string value)
    (width_ : value) (tail : list (event S)) : Prop :=
  exists e0 e1 e2 e3 e4 e5 : event S,
    tail = [e0; e1; e2; e3; e4; e5] /\
    called e0 = Doc.restore /\
    called e1 = Doc.moveTo (doc_x (after e0))
                  (js_sub (doc_y (after e0))
                     (js_mul (header_size this header) (VNum 0.85))) /\
    called e2 = Doc.lineWidth
                  (or_else (prop header "borderWidth") (headerBorderWidth this)) /\
    called e3 = Doc.lineTo (js_add (doc_x (after e2)) width_)
                  (js_sub (doc_y (after e2))
                     (js_mul (header_size this header) (VNum 0.85))) /\
    called e4 = Doc.strokeColor
                  (or_else (prop header "borderColor") (headerBorderColor this)) /\
    called e5 = Doc.stroke.

(** [this] with another [headerBorderStyle]. *)
Definition with_headerBorderStyle (v : value) (t : PDFTable) : PDFTable :=
  {| cellAlign := cellAlign t; cellColor := cellColor t;
     cellBorderColor := cellBorderColor t; cellBorderWidth := cellBorderWidth t;
     cellFont := cellFont t; cellItalic := cellItalic t;
     cellFontSize := cellFontSize t; headerAlign := headerAlign t;
     headerColor := headerColor t; headerBorderColor := headerBorderColor t;
     headerBorderStyle := v; headerBorderWidth := headerBorderWidth t;
     headerFont := headerFont t; headerItalic := headerItalic t;
     headerFontSize := headerFontSize t; margins := margins t;
     cellEmptyColor := cellEmptyColor t; cellEmptyFontSize := cellEmptyFontSize t;
     cellEmptyItalic := cellEmptyItalic t; cellEmptyText := cellEmptyText t;
     headerEmptyColor := headerEmptyColor t;
     headerEmptyFontSize := headerEmptyFontSize t;
     headerEmptyItalic := headerEmptyItalic t;
     headerEmptyText := headerEmptyText t;
     headerAllowWrap := headerAllowWrap t; cellAllowWrap := cellAllowWrap t;
     skewFactor := skewFactor t; columns := columns t |}.

End ExpectedMore.

Section ExpectedFooter.

Context `{Host}.

(** A footer entry that is drawn: a string, or an object with a label and
    a value. *)
Definition drawn_entry (d : value) : bool :=
  match d with
  | VStr _ => true
  | VObj o => Footer.defined (prop o "value") && Footer.defined (prop o "label")
  | _ => false
  end.

(** The line, counted up from the last one, at which entry [i] is drawn:
    each drawn entry before it has used one of the [n - 1] lines above the
    last. *)
Definition line_of (data : list value) (i : nat) : Z :=
  Z.of_nat (length data) - 1
  - Z.of_nat (length (filter (fun d => drawn_entry d = true) (take i data))).

(** The footer as [onPageAdded] leaves it. *)
Definition paged (this : Footer.BasicPDFFooter) (b : Footer.Builder)
  : Footer.BasicPDFFooter :=
  let m := Footer.margins b in
  Footer.Build_BasicPDFFooter
    (Footer.includePagination this)
    (Footer.builder_currentPage b)
    (Footer.data this)
    (js_sub (js_sub (Footer.page_width b) (prop m "left")) (prop m "right"))
    (js_sub (js_sub (Footer.page_height b) (prop m "top")) (prop m "bottom"))
    (Footer.title b)
    (Some b).

End ExpectedFooter.

(* ===================================================================== *)
(** ** Facts about the value model *)
(* ===================================================================== *)

Lemma SFcompare_antisym (a b : SpecFloat.spec_float) :
  SpecFloat.SFcompare b a = option_map CompOpp (SpecFloat.SFcompare a b).
Proof.
  destruct a as [sa|sa| |sa ma ea], b as [sb|sb| |sb mb eb]; simpl;
    try reflexivity;
    try (destruct sa; reflexivity);
    try (destruct sb; reflexivity);
    try (destruct sa, sb; reflexivity).
  pose proof (Pos.compare_cont_antisym ma mb Eq) as E. simpl in E.
  destruct sa, sb; simpl; try reflexivity; f_equal;
    rewrite (Z.compare_antisym ea eb);
    destruct (ea ?= eb)%Z; simpl; try reflexivity;
    rewrite <- E; destruct (Pos.compare_cont Eq ma mb); reflexivity.
Qed.

(** [a <= b] rules out [b < a]. *)
Lemma leb_not_ltb (a b : float) :
  PrimFloat.leb a b = true -> PrimFloat.ltb b a = false.
Proof.
  rewrite FloatAxioms.leb_spec, FloatAxioms.ltb_spec.
  unfold SpecFloat.SFleb, SpecFloat.SFltb.
  rewrite (SFcompare_antisym (Prim2SF a) (Prim2SF b)).
  destruct (SpecFloat.SFcompare (Prim2SF a) (Prim2SF b)) as [[]|];
    simpl; congruence.
Qed.

Lemma or_else_falsy (v d : value) : truthy v = false -> or_else v d = d.
Proof. unfold or_else. intros ->. reflexivity. Qed.

Lemma or_else_truthy (v d : value) : truthy v = true -> or_else v d = v.
Proof. unfold or_else. intros ->. reflexivity. Qed.

(* ===================================================================== *)
(** ** Column widths *)
(* ===================================================================== *)

Section ColumnWidth.

Context `{Host} {S : Type} `{Surface S}.
Variable this : PDFTable.

(** Resolving a width only asks the surface for the content width. *)
Lemma _columnWidth_pure (w : value) (st : state S) :
  final (_columnWidth this w st) = st /\ events (_columnWidth this w st) = [].
Proof.
  unfold _columnWidth, width.
  destruct (length (columns this) <? 2)%nat; [split; reflexivity|].
  destruct (nullish w); [split; reflexivity|].
  destruct (lt_num w 1); split; reflexivity.
Qed.

End ColumnWidth.

(** C2. The resolved column width is the full content width when the table
    has fewer than two columns, whatever the column's own width; otherwise
    contentWidth / columnCount for an unset width, contentWidth * width for
    a number with 0 <= width < 1, and the width itself for a number with
    1 <= width. *)
Theorem columnWidth_resolution `{Host} {S : Type} `{Surface S}
    (this : PDFTable) (w : value) (st : state S) :
  let n := length (columns this) in
  let cw := contentWidth (surface st) in
  let resolved := result (_columnWidth this w st) in
  (n < 2 -> resolved = cw) /\
  (2 <= n -> w = VUndefined \/ w = VNull ->
     resolved = js_div cw (VNum (num_of_nat n))) /\
  (2 <= n -> forall f, w = VNum f ->
     PrimFloat.leb 0 f = true -> PrimFloat.ltb f 1 = true ->
     resolved = js_mul cw (VNum f)) /\
  (2 <= n -> forall f, w = VNum f -> PrimFloat.leb 1 f = true ->
     resolved = VNum f).
Proof.
  intros n cw resolved. subst resolved. unfold _columnWidth, width.
  repeat split.
  - intros Hn. apply Nat.ltb_lt in Hn. fold n. rewrite Hn. reflexivity.
  - intros Hn Hw. fold n.
    assert (Hlt : (n <? 2)%nat = false) by (apply Nat.ltb_ge; lia).
    rewrite Hlt. destruct Hw as [-> | ->]; reflexivity.
  - intros Hn f -> _ Hlt1. fold n.
    assert (Hlt : (n <? 2)%nat = false) by (apply Nat.ltb_ge; lia).
    rewrite Hlt. simpl. unfold lt_num. simpl. rewrite Hlt1. reflexivity.
  - intros Hn f -> Hge. fold n.
    assert (Hlt : (n <? 2)%nat = false) by (apply Nat.ltb_ge; lia).
    rewrite Hlt. simpl. unfold lt_num. simpl.
    rewrite (leb_not_ltb _ _ Hge). reflexivity.
Qed.

(* ===================================================================== *)
(** ** The table engine *)
(* ===================================================================== *)

Section TableFacts.
Context `{Host} {S : Type} `{Surface S}.
Variable this : PDFTable.

Ltac run :=
  cbn beta iota zeta delta
    [strokeBorder
     bind when read send ret assign result final events
     surface currentPage currentPosition_x currentPosition_y
     startingPosition_x startingPosition_y startingPage columnWidth
     set_currentPage set_currentPosition set_startingPosition set_startingPage set_columnWidth
     app called returned after cursor origin calls map].

Ltac cases :=
  repeat match goal with
  | |- context [if ?c then _ else _] => destruct c eqn:?
  end.

Ltac split_cases := unfold when; cbv zeta; cases; run.

Lemma bind_events {A B} (m : M S A) (k : A -> M S B) st :
  events (bind m k st) = events (m st) ++ events (k (result (m st)) (final (m st))).
Proof. reflexivity. Qed.

Lemma bind_final {A B} (m : M S A) (k : A -> M S B) st :
  final (bind m k st) = final (k (result (m st)) (final (m st))).
Proof. reflexivity. Qed.

Lemma bind_result {A B} (m : M S A) (k : A -> M S B) st :
  result (bind m k st) = result (k (result (m st)) (final (m st))).
Proof. reflexivity. Qed.

(** Composite functions are walked through one [bind] at a time, so that
    the functions they call stay folded. *)
Ltac walk :=
  repeat (progress (rewrite ?bind_events, ?bind_final, ?bind_result;
    cbn beta iota zeta delta
    [when read send ret assign result final events
     surface currentPage currentPosition_x currentPosition_y
     startingPosition_x startingPosition_y startingPage columnWidth
     set_currentPage set_currentPosition set_startingPosition set_startingPage
     set_columnWidth app called returned after cursor origin calls map])).

Lemma marks_app (l l' : list (event S)) : marks (l ++ l') = marks l ++ marks l'.
Proof. apply omap_app. Qed.

Lemma strokes_app (l l' : list Doc.call) : strokes (l ++ l') = strokes l + strokes l'.
Proof. unfold strokes. rewrite filter_app, length_app. reflexivity. Qed.

Lemma calls_app (l l' : list (event S)) : calls (l ++ l') = calls l ++ calls l'.
Proof. apply map_app. Qed.

(** *** The header *)

Lemma _addHeader_marks col st :
  marks (events (_addHeader this col st))
  = [MHeader (currentPosition_x st) (currentPosition_y st)].
Proof.
  unfold _addHeader; split_cases; reflexivity.
Qed.

Lemma _addHeader_frame col st :
  cursor (final (_addHeader this col st)) = cursor st /\
  origin (final (_addHeader this col st)) = origin st /\
  columnWidth (final (_addHeader this col st)) = columnWidth st.
Proof.
  unfold _addHeader; split_cases; repeat split; reflexivity.
Qed.

Lemma _addHeader_strokes col st :
  strokes (calls (events (_addHeader this col st))) = 1.
Proof.
  unfold _addHeader; split_cases; reflexivity.
Qed.

(** What the header draws with. *)
Lemma _addHeader_look col st :
  let h := col_header col in
  let cs := calls (events (_addHeader this col st)) in
  let empty := text_is_empty (prop h "text") in
  fill_of cs = Some (if empty then or_else (prop h "emptyColor") (headerEmptyColor this)
                     else or_else (prop h "color") (headerColor this)) /\
  size_of cs = Some (if empty then or_else (prop h "emptyFontSize") (headerEmptyFontSize this)
                     else or_else (prop h "fontSize") (headerFontSize this)) /\
  slanted cs = truthy (if empty then or_else (prop h "emptyItalic") (headerEmptyItalic this)
                       else or_else (prop h "italic") (headerItalic this)) /\
  text_of cs = Some (if empty then or_else (prop h "emptyText") (headerEmptyText this)
                     else prop h "text") /\
  gap_of cs = Some (_headerLineGap this h).
Proof.
  intros h cs empty. subst cs h empty.
  unfold _addHeader; split_cases; repeat split; reflexivity.
Qed.

(** *** The cell of a row *)

Lemma drawCell_marks row st : marks (events (drawCell this row st)) = [MRow].
Proof.
  unfold drawCell; split_cases; reflexivity.
Qed.

Lemma drawCell_frame row st :
  cursor (final (drawCell this row st)) = cursor st /\
  origin (final (drawCell this row st)) = origin st /\
  columnWidth (final (drawCell this row st)) = columnWidth st.
Proof.
  unfold drawCell; split_cases; repeat split; reflexivity.
Qed.

Lemma drawCell_strokes row st :
  strokes (calls (events (drawCell this row st)))
  = if is_string (or_else (prop row "borderStyle") (cellBorderStyle this)) "none"
    then 0 else 1.
Proof.
  unfold drawCell; split_cases; reflexivity.
Qed.

Lemma drawCell_look row st :
  let cs := calls (events (drawCell this row st)) in
  let empty := text_is_empty (prop row "text") in
  fill_of cs = Some (if empty then or_else (prop row "emptyColor") (cellEmptyColor this)
                     else or_else (prop row "color") (cellColor this)) /\
  size_of cs = Some (if empty then or_else (prop row "emptyFontSize") (cellEmptyFontSize this)
                     else or_else (prop row "fontSize") (cellFontSize this)) /\
  slanted cs = truthy (if empty then or_else (prop row "emptyItalic") (cellEmptyItalic this)
                       else or_else (prop row "italic") (cellItalic this)) /\
  text_of cs = Some (if empty then or_else (prop row "emptyText") (cellEmptyText this)
                     else prop row "text") /\
  gap_of cs = Some (_rowLineGap this row).
Proof.
  intros cs empty. subst cs empty.
  unfold drawCell; split_cases; repeat split; reflexivity.
Qed.

(** *** The page check before a row *)

Lemma marks_cons (e : event S) (l : list (event S)) :
  marks (e :: l)
  = match mark_of e with Some m => m :: marks l | None => marks l end.
Proof. reflexivity. Qed.

Lemma repeatHeaderIfNeeded_marks col st :
  let needed := truthy (reply (page_check st) (surface st)) in
  let top := doc_y (perform (page_check st) (surface st)) in
  marks (events (repeatHeaderIfNeeded this col st))
  = MCheck needed top
      :: (if needed then [MHeader (currentPosition_x st) top] else []).
Proof.
  intros needed top. subst needed top.
  unfold repeatHeaderIfNeeded, page_check. walk.
  rewrite marks_cons. cbn [mark_of called returned after].
  destruct (truthy _) eqn:E; walk.
  - rewrite _addHeader_marks. walk. reflexivity.
  - reflexivity.
Qed.

Lemma repeatHeaderIfNeeded_frame col st :
  let needed := truthy (reply (page_check st) (surface st)) in
  let top := doc_y (perform (page_check st) (surface st)) in
  let st' := final (repeatHeaderIfNeeded this col st) in
  cursor st' = (if needed then (js_add (currentPage st) (VNum 1), currentPosition_x st, top)
                else cursor st) /\
  origin st' = origin st /\
  columnWidth st' = columnWidth st.
Proof.
  intros needed top st'. subst needed top st'.
  unfold repeatHeaderIfNeeded, page_check. walk.
  destruct (truthy _) eqn:E; walk.
  - match goal with
    | |- context [_addHeader this col ?s] =>
        destruct (_addHeader_frame col s) as (Hc & Ho & Hw)
    end.
    rewrite Hc, Ho, Hw. walk. repeat split; reflexivity.
  - repeat split; reflexivity.
Qed.

Lemma _addRow_marks col row st :
  marks (events (_addRow this col row st))
  = row_marks (currentPosition_x st)
      (truthy (reply (page_check st) (surface st)),
       doc_y (perform (page_check st) (surface st))).
Proof.
  unfold _addRow. rewrite bind_events, marks_app.
  rewrite repeatHeaderIfNeeded_marks, drawCell_marks.
  unfold row_marks. cbn [fst snd]. reflexivity.
Qed.

(** The log of [_addRow] is the page check, with the header it may
    repeat, followed by the cell. *)
Lemma _addRow_events col row st :
  events (_addRow this col row st)
  = events (repeatHeaderIfNeeded this col st)
      ++ events (drawCell this row (final (repeatHeaderIfNeeded this col st))).
Proof. reflexivity. Qed.

Lemma _addRow_frame col row st :
  let needed := truthy (reply (page_check st) (surface st)) in
  let top := doc_y (perform (page_check st) (surface st)) in
  let st' := final (_addRow this col row st) in
  cursor st' = (if needed then (js_add (currentPage st) (VNum 1), currentPosition_x st, top)
                else cursor st) /\
  origin st' = origin st /\
  columnWidth st' = columnWidth st.
Proof.
  intros needed top st'. subst needed top st'.
  unfold _addRow. rewrite bind_final.
  destruct (drawCell_frame row (final (repeatHeaderIfNeeded this col st)))
    as (Hc & Ho & Hw).
  destruct (repeatHeaderIfNeeded_frame col st) as (Hc' & Ho' & Hw').
  rewrite Hc, Ho, Hw. auto.
Qed.

Lemma _addRow_x col row st :
  currentPosition_x (final (_addRow this col row st)) = currentPosition_x st.
Proof.
  destruct (_addRow_frame col row st) as (Hc & _).
  unfold cursor in Hc. destruct (truthy _); congruence.
Qed.

(** *** A column *)

Lemma for_each_cons {A} (a : A) (l : list A) (body : A -> M S unit) st :
  for_each (a :: l) body st
  = bind (body a) (fun _ => for_each l body) st.
Proof. reflexivity. Qed.

Lemma for_each_app {A} (l l' : list A) (body : A -> M S unit) st :
  final (for_each (l ++ l') body st)
  = final (for_each l' body (final (for_each l body st))) /\
  events (for_each (l ++ l') body st)
  = events (for_each l body st)
      ++ events (for_each l' body (final (for_each l body st))).
Proof.
  revert st. induction l as [|a l IH]; intros st.
  - split; reflexivity.
  - change ((a :: l) ++ l') with (a :: (l ++ l')).
    rewrite !for_each_cons, !bind_final, !bind_events.
    destruct (IH (final (body a st))) as (-> & ->).
    rewrite app_assoc. split; reflexivity.
Qed.

Lemma rows_marks col rows st :
  let st' := final (for_each rows (fun row => _addRow this col row) st) in
  (exists checks : list (bool * value),
     length checks = length rows /\
     marks (events (for_each rows (fun row => _addRow this col row) st))
     = concat (map (row_marks (currentPosition_x st)) checks)) /\
  currentPosition_x st' = currentPosition_x st /\
  origin st' = origin st /\
  columnWidth st' = columnWidth st.
Proof.
  revert st. induction rows as [|row rows IH]; intros st.
  - split; [exists []; split; reflexivity | repeat split; reflexivity].
  - cbn zeta. rewrite for_each_cons, bind_final, bind_events, marks_app.
    destruct (IH (final (_addRow this col row st)))
      as ((checks & Hlen & Hmarks) & Hx & Ho & Hw).
    destruct (_addRow_frame col row st) as (_ & Ho' & Hw').
    rewrite Hmarks, Hx, Ho, Hw, _addRow_x, _addRow_marks.
    split; [|auto].
    eexists (_ :: checks). split; [simpl; rewrite Hlen; reflexivity|].
    reflexivity.
Qed.

Lemma _addColumn_spec col st :
  let w := result (_columnWidth this (col_width col) st) in
  let st' := final (_addColumn this col st) in
  (exists checks : list (bool * value),
     length checks = length (col_rows col) /\
     marks (events (_addColumn this col st))
     = column_marks (currentPosition_x st) (currentPosition_y st) checks) /\
  currentPosition_x st' = js_add (currentPosition_x st) w /\
  origin st' = origin st.
Proof.
  intros w st'. subst w st'. unfold _addColumn.
  destruct (_columnWidth_pure this (col_width col) st) as (Hf & He).
  rewrite !bind_final, !bind_events, Hf, He.
  set (w := result (_columnWidth this (col_width col) st)).
  walk.
  set (st1 := set_columnWidth w st).
  destruct (_addHeader_frame col st1) as (Hc & Ho & Hw).
  set (st2 := final (_addHeader this col st1)) in *.
  destruct (rows_marks col (col_rows col) st2)
    as ((checks & Hlen & Hmarks) & Hx & Ho' & Hw').
  set (st3 := final (for_each (col_rows col) _ st2)) in *.
  assert (Hx2 : currentPosition_x st2 = currentPosition_x st)
    by (unfold cursor in Hc; injection Hc; auto).
  split; [|split].
  - exists checks. split; [exact Hlen|].
    rewrite !marks_app, _addHeader_marks, Hmarks, Hx2.
    rewrite app_nil_r. reflexivity.
  - rewrite Hx, Hx2, Hw', Hw. reflexivity.
  - change (origin st3 = origin st). rewrite Ho', Ho. reflexivity.
Qed.

(** *** The whole table *)

Lemma resetCursor_spec st :
  calls (events (resetCursor st)) = [Doc.switchToPage (startingPage st)] /\
  cursor (final (resetCursor st))
  = (startingPage st, currentPosition_x st, startingPosition_y st) /\
  origin (final (resetCursor st)) = origin st.
Proof. unfold resetCursor. walk. repeat split; reflexivity. Qed.

Lemma resetCursor_marks st : marks (events (resetCursor st)) = [].
Proof. unfold resetCursor. walk. reflexivity. Qed.

Lemma recordStart_spec st :
  let page := js_sub (bufferedPageCount (surface st)) (VNum 1) in
  let st' := final (recordStart st) in
  events (recordStart st) = [] /\
  surface st' = surface st /\
  cursor st' = (page, pageLeft (surface st), doc_y (surface st)) /\
  origin st' = (page, pageLeft (surface st), doc_y (surface st)).
Proof. unfold recordStart. walk. repeat split; reflexivity. Qed.

Lemma layout_spec col st :
  let st0 := final (resetCursor st) in
  let w := result (_columnWidth this (col_width col) st0) in
  let st' := final (layout this col st) in
  (exists checks : list (bool * value),
     length checks = length (col_rows col) /\
     marks (events (layout this col st))
     = column_marks (currentPosition_x st) (startingPosition_y st) checks) /\
  currentPosition_x st' = js_add (currentPosition_x st) w /\
  origin st' = origin st.
Proof.
  intros st0 w st'. subst st0 w st'. unfold layout.
  rewrite bind_final, bind_events, marks_app, resetCursor_marks.
  destruct (resetCursor_spec st) as (_ & Hc & Ho).
  destruct (_addColumn_spec col (final (resetCursor st)))
    as ((checks & Hlen & Hmarks) & Hx & Ho').
  assert (Hx0 : currentPosition_x (final (resetCursor st)) = currentPosition_x st)
    by reflexivity.
  assert (Hy0 : currentPosition_y (final (resetCursor st)) = startingPosition_y st)
    by reflexivity.
  rewrite Hmarks, Hx, Ho', Ho, Hx0, Hy0.
  split; [exists checks; split; [exact Hlen | reflexivity] | split; reflexivity].
Qed.

Lemma columns_marks cols st :
  (exists segs : list (value * list (bool * value)),
     Forall2 (fun col seg => length seg.2 = length (col_rows col)) cols segs /\
     marks (events (for_each cols (layout this) st))
     = concat (map (fun seg => column_marks seg.1 (startingPosition_y st) seg.2)
                   segs)) /\
  origin (final (for_each cols (layout this) st)) = origin st.
Proof.
  revert st. induction cols as [|col cols IH]; intros st.
  - split; [exists []; split; [constructor | reflexivity] | reflexivity].
  - rewrite for_each_cons, bind_final, bind_events, marks_app.
    destruct (layout_spec col st) as ((checks & Hlen & Hmarks) & _ & Ho).
    destruct (IH (final (layout this col st))) as ((segs & Hall & Hrest) & Ho').
    assert (Hy : startingPosition_y (final (layout this col st)) = startingPosition_y st)
      by (unfold origin in Ho; injection Ho; auto).
    rewrite Hmarks, Hrest, Ho', Ho, Hy.
    split; [|reflexivity].
    exists ((currentPosition_x st, checks) :: segs).
    split; [constructor; assumption | reflexivity].
Qed.

Lemma addToPDF_marks st :
  exists segs : list (value * list (bool * value)),
    Forall2 (fun col seg => length seg.2 = length (col_rows col))
            (columns this) segs /\
    marks (events (addToPDF this st))
    = concat (map (fun seg => column_marks seg.1 (doc_y (surface st)) seg.2)
                  segs).
Proof.
  unfold addToPDF.
  destruct (recordStart_spec st) as (He & _ & _ & Ho).
  rewrite !bind_events, ?bind_final, He, !marks_app.
  destruct (columns_marks (columns this) (final (recordStart st)))
    as ((segs & Hall & Hmarks) & _).
  assert (Hy : startingPosition_y (final (recordStart st)) = doc_y (surface st))
    by reflexivity.
  rewrite Hmarks, Hy. walk.
  exists segs. split; [exact Hall|].
  rewrite app_nil_r. reflexivity.
Qed.

(** *** Falsy overrides *)






Lemma blank_is_empty (text : value) : blank text -> text_is_empty text = true.
Proof. intros [-> | [-> | ->]]; reflexivity. Qed.

Lemma worded_not_empty (text : value) : worded text -> text_is_empty text = false.
Proof.
  intros (s & -> & Hs). destruct s as [|c s]; [congruence | reflexivity].
Qed.

(** C1. Each column leaves one header render, then for each of its rows a
    page check, one more header render exactly when the check asked for a
    new page (drawn at the column's x and at the [doc.y] the check left,
    the top of the new page), and the row.  A header render contains no
    page check; after a check that asked for a page, the tracked page is
    one more and the tracked y is that new-page y.  The whole table is the
    columns' logs one after the other, each first header at the starting y. *)
Theorem header_repetition :
  (forall col st,
     marks (events (_addHeader this col st))
     = [MHeader (currentPosition_x st) (currentPosition_y st)]) /\
  (forall col st, exists checks : list (bool * value),
     length checks = length (col_rows col) /\
     marks (events (_addColumn this col st))
     = column_marks (currentPosition_x st) (currentPosition_y st) checks) /\
  (forall st, exists segs : list (value * list (bool * value)),
     Forall2 (fun col seg => length seg.2 = length (col_rows col))
             (columns this) segs /\
     marks (events (addToPDF this st))
     = concat (map (fun seg => column_marks seg.1 (doc_y (surface st)) seg.2)
                   segs)) /\
  (forall col row st,
     truthy (reply (page_check st) (surface st)) = true ->
     let top := doc_y (perform (page_check st) (surface st)) in
     let st' := final (_addRow this col row st) in
     marks (events (_addRow this col row st))
     = [MCheck true top; MHeader (currentPosition_x st) top; MRow] /\
     currentPage st' = js_add (currentPage st) (VNum 1) /\
     currentPosition_x st' = currentPosition_x st /\
     currentPosition_y st' = top) /\
  (forall col row st,
     truthy (reply (page_check st) (surface st)) = false ->
     marks (events (_addRow this col row st))
     = [MCheck false (doc_y (perform (page_check st) (surface st))); MRow] /\
     cursor (final (_addRow this col row st)) = cursor st).
Proof.
  split; [exact _addHeader_marks|].
  split; [intros col st; exact (proj1 (_addColumn_spec col st))|].
  split; [exact addToPDF_marks|].
  split.
  - intros col row st Hneeded top st'. subst top st'.
    destruct (_addRow_frame col row st) as (Hc & _).
    rewrite _addRow_marks. rewrite Hneeded in *.
    unfold cursor in Hc. injection Hc as Hp Hx Hy.
    repeat split; assumption || reflexivity.
  - intros col row st Hneeded.
    destruct (_addRow_frame col row st) as (Hc & _).
    rewrite _addRow_marks. rewrite Hneeded in *.
    split; [reflexivity | exact Hc].
Qed.


Lemma is_string_or_else_none (v : value) :
  is_string (or_else v VUndefined) "none" = is_string v "none".
Proof.
  unfold or_else. destruct (truthy v) eqn:Hv; [reflexivity|].
  destruct v as [| |b|f|s|o]; try reflexivity.
  simpl in Hv. destruct s; [reflexivity | discriminate].
Qed.



Lemma drawCell_stroke_color (row : gmap string value) (st : state S) :
  truthy (prop row "borderColor") = false ->
  is_string (prop row "borderStyle") "none" = false ->
  stroke_color_of (calls (events (drawCell this row st)))
  = Some (cellBorderColor this).
Proof.
  intros Hcolor Hstyle. unfold drawCell, cellBorderStyle.
  rewrite is_string_or_else_none, Hstyle.
  rewrite (or_else_falsy _ (cellBorderColor this) Hcolor).
  lazy iota. split_cases; reflexivity.
Qed.

End TableFacts.

(* ===================================================================== *)
(** ** Rows and columns within the render pass *)
(* ===================================================================== *)

Section RenderPass.

Context `{Host} {S : Type} `{Surface S}.
Variable this : PDFTable.

Ltac run :=
  cbn beta iota zeta delta
    [strokeBorder
     bind when read send ret assign result final events
     surface currentPage currentPosition_x currentPosition_y
     startingPosition_x startingPosition_y startingPage columnWidth
     set_currentPage set_currentPosition set_startingPosition set_startingPage
     set_columnWidth app called returned after cursor origin calls map].

Ltac cases :=
  repeat match goal with
  | |- context [if ?c then _ else _] => destruct c eqn:?
  end.

Ltac split_cases := unfold when; cbv zeta; cases; run.

Ltac walk :=
  repeat (progress (rewrite ?bind_events, ?bind_final, ?bind_result;
    cbn beta iota zeta delta
    [when read send ret assign result final events
     surface currentPage currentPosition_x currentPosition_y
     startingPosition_x startingPosition_y startingPage columnWidth
     set_currentPage set_currentPosition set_startingPosition set_startingPage
     set_columnWidth app called returned after cursor origin])).

(** *** Logs of the composite functions *)

Lemma for_each_calls {A} (a : A) (l : list A) (body : A -> M S unit) st :
  calls (events (for_each (a :: l) body st))
  = calls (events (body a st))
      ++ calls (events (for_each l body (final (body a st)))).
Proof. rewrite for_each_cons, bind_events. apply calls_app. Qed.

Lemma _addRow_calls col row st :
  calls (events (_addRow this col row st))
  = calls (events (repeatHeaderIfNeeded this col st))
      ++ calls (events (drawCell this row
                          (final (repeatHeaderIfNeeded this col st)))).
Proof. rewrite _addRow_events. apply calls_app. Qed.

Lemma repeatHeaderIfNeeded_calls col st :
  exists st1 : state S,
    columnWidth st1 = columnWidth st /\
    calls (events (repeatHeaderIfNeeded this col st))
    = page_check st
        :: (if truthy (reply (page_check st) (surface st))
            then calls (events (_addHeader this col st1)) else []).
Proof.
  unfold repeatHeaderIfNeeded, page_check. walk.
  destruct (truthy _); walk.
  - eexists. split; [|reflexivity]. reflexivity.
  - exists st. split; reflexivity.
Qed.

Lemma _addColumn_calls col st :
  calls (events (_addColumn this col st))
  = calls (events (_addHeader this col
                     (set_columnWidth
                        (result (_columnWidth this (col_width col) st)) st)))
    ++ calls (events (for_each (col_rows col)
                        (fun row => _addRow this col row)
                        (final (_addHeader this col
                           (set_columnWidth
                              (result (_columnWidth this (col_width col) st))
                              st))))).
Proof.
  unfold _addColumn.
  destruct (_columnWidth_pure this (col_width col) st) as (Hf & He).
  rewrite !bind_events, ?bind_final, Hf, He. walk.
  rewrite !calls_app, app_nil_r. reflexivity.
Qed.

Lemma layout_calls col st :
  calls (events (layout this col st))
  = Doc.switchToPage (startingPage st)
      :: calls (events (_addColumn this col (final (resetCursor st)))).
Proof.
  unfold layout. rewrite bind_events, calls_app.
  rewrite (proj1 (resetCursor_spec st)). reflexivity.
Qed.

Lemma layout_events col st :
  events (layout this col st)
  = events (resetCursor st)
      ++ events (_addColumn this col (final (resetCursor st))) /\
  final (layout this col st)
  = final (_addColumn this col (final (resetCursor st))).
Proof. unfold layout. rewrite bind_events, bind_final. split; reflexivity. Qed.

(** The render pass is the loop over the columns, then the assignment
    that moves [doc.y] down by the bottom margin. *)
Lemma addToPDF_events st :
  let st_end :=
    final (for_each (columns this) (layout this) (final (recordStart st))) in
  exists closing : event S,
    called closing = Doc.set_y (js_add (doc_y (surface st_end))
                                  (member (margins this) "bottom")) /\
    events (addToPDF this st)
    = events (for_each (columns this) (layout this) (final (recordStart st)))
        ++ [closing] /\
    cursor (final (addToPDF this st)) = cursor st_end /\
    origin (final (addToPDF this st)) = origin st_end.
Proof.
  intros st_end. subst st_end. unfold addToPDF.
  destruct (recordStart_spec st) as (He & _).
  rewrite !bind_events, ?bind_final, He. walk.
  eexists. split; [|split; [reflexivity|split; reflexivity]].
  reflexivity.
Qed.

Lemma addToPDF_calls st :
  let st_end :=
    final (for_each (columns this) (layout this) (final (recordStart st))) in
  calls (events (addToPDF this st))
  = calls (events (for_each (columns this) (layout this)
                     (final (recordStart st))))
    ++ [Doc.set_y (js_add (doc_y (surface st_end))
                     (member (margins this) "bottom"))].
Proof.
  intros st_end. destruct (addToPDF_events st) as (closing & Hc & -> & _).
  rewrite calls_app. cbn [calls map]. rewrite Hc. reflexivity.
Qed.

(** *** The cell within the log of a row *)

Lemma from_last_save_app (l l' : list Doc.call) :
  from_last_save l' <> [] ->
  from_last_save (l ++ l') = from_last_save l'.
Proof.
  intros Hl'. induction l as [|c l IH]; [reflexivity|].
  cbn [app from_last_save]. rewrite IH.
  destruct (from_last_save l'); [congruence | reflexivity].
Qed.

Lemma drawCell_from_last_save row st :
  from_last_save (calls (events (drawCell this row st)))
  = calls (events (drawCell this row st)) /\
  calls (events (drawCell this row st)) <> [].
Proof. unfold drawCell. split_cases; split; (reflexivity || discriminate). Qed.

Lemma _addRow_cell col row st :
  from_last_save (calls (events (_addRow this col row st)))
  = calls (events (drawCell this row
                     (final (repeatHeaderIfNeeded this col st)))).
Proof.
  rewrite _addRow_calls.
  destruct (drawCell_from_last_save row
              (final (repeatHeaderIfNeeded this col st))) as (Hsame & Hne).
  rewrite from_last_save_app by (rewrite Hsame; exact Hne).
  exact Hsame.
Qed.

(** What the cell of a row is drawn with, read off the log of [_addRow]. *)
Lemma _addRow_look col row st :
  let cs := from_last_save (calls (events (_addRow this col row st))) in
  let empty := text_is_empty (prop row "text") in
  fill_of cs = Some (if empty then or_else (prop row "emptyColor") (cellEmptyColor this)
                     else or_else (prop row "color") (cellColor this)) /\
  size_of cs = Some (if empty then or_else (prop row "emptyFontSize") (cellEmptyFontSize this)
                     else or_else (prop row "fontSize") (cellFontSize this)) /\
  slanted cs = truthy (if empty then or_else (prop row "emptyItalic") (cellEmptyItalic this)
                       else or_else (prop row "italic") (cellItalic this)) /\
  text_of cs = Some (if empty then or_else (prop row "emptyText") (cellEmptyText this)
                     else prop row "text") /\
  gap_of cs = Some (_rowLineGap this row).
Proof.
  intros cs empty. subst cs empty. rewrite _addRow_cell.
  apply drawCell_look.
Qed.

(** *** Strokes of a row *)

Lemma _addRow_strokes col row st :
  strokes (calls (events (_addRow this col row st)))
  = (if truthy (reply (page_check st) (surface st)) then 1 else 0)
    + (if is_string (or_else (prop row "borderStyle") (cellBorderStyle this))
                    "none" then 0 else 1).
Proof.
  rewrite _addRow_calls, strokes_app, drawCell_strokes. f_equal.
  destruct (repeatHeaderIfNeeded_calls col st) as (st1 & _ & ->).
  change (strokes (page_check st :: ?l)) with (strokes l).
  destruct (truthy _); [apply _addHeader_strokes | reflexivity].
Qed.

Lemma _addRow_stroke_color col row st :
  truthy (prop row "borderColor") = false ->
  is_string (prop row "borderStyle") "none" = false ->
  stroke_color_of (calls (events (_addRow this col row st)))
  = Some (cellBorderColor this).
Proof.
  intros Hcolor Hstyle. rewrite _addRow_calls. unfold stroke_color_of.
  rewrite omap_app, last_app.
  fold (stroke_color_of (calls (events (drawCell this row
          (final (repeatHeaderIfNeeded this col st)))))).
  rewrite drawCell_stroke_color by assumption. reflexivity.
Qed.

(** *** Pages switched to *)

Lemma switched_pages_app (l l' : list Doc.call) :
  switched_pages (l ++ l') = switched_pages l ++ switched_pages l'.
Proof. apply omap_app. Qed.

Lemma _addHeader_switched col st :
  switched_pages (calls (events (_addHeader this col st))) = [].
Proof. unfold _addHeader. split_cases; reflexivity. Qed.

Lemma drawCell_switched row st :
  switched_pages (calls (events (drawCell this row st))) = [].
Proof. unfold drawCell. split_cases; reflexivity. Qed.

Lemma _addRow_switched col row st :
  switched_pages (calls (events (_addRow this col row st))) = [].
Proof.
  rewrite _addRow_calls, switched_pages_app, drawCell_switched.
  destruct (repeatHeaderIfNeeded_calls col st) as (st1 & _ & ->).
  change (switched_pages (page_check st :: ?l)) with (switched_pages l).
  destruct (truthy _); [rewrite _addHeader_switched|]; reflexivity.
Qed.

Lemma rows_switched col rows st :
  switched_pages
    (calls (events (for_each rows (fun row => _addRow this col row) st))) = [].
Proof.
  revert st. induction rows as [|row rows IH]; intros st; [reflexivity|].
  rewrite for_each_calls, switched_pages_app, _addRow_switched, IH.
  reflexivity.
Qed.

Lemma _addColumn_switched col st :
  switched_pages (calls (events (_addColumn this col st))) = [].
Proof.
  rewrite _addColumn_calls, switched_pages_app, _addHeader_switched,
    rows_switched.
  reflexivity.
Qed.

Lemma columns_switched cols st :
  switched_pages (calls (events (for_each cols (layout this) st)))
  = repeat (startingPage st) (length cols).
Proof.
  revert st. induction cols as [|col cols IH]; intros st; [reflexivity|].
  rewrite for_each_calls, layout_calls. cbn [app length repeat].
  change (switched_pages (Doc.switchToPage ?p :: ?l))
    with (p :: switched_pages l).
  rewrite switched_pages_app, _addColumn_switched, IH. cbn [app].
  destruct (layout_spec this col st) as (_ & _ & Ho).
  assert (Hpage : startingPage (final (layout this col st)) = startingPage st)
    by (unfold origin in Ho; injection Ho; auto).
  rewrite Hpage. reflexivity.
Qed.

Lemma addToPDF_switched st :
  switched_pages (calls (events (addToPDF this st)))
  = repeat (js_sub (bufferedPageCount (surface st)) (VNum 1))
           (length (columns this)).
Proof.
  rewrite addToPDF_calls, switched_pages_app, columns_switched.
  cbn [switched_pages omap]. rewrite app_nil_r. reflexivity.
Qed.

(** C3. A header or a row cell whose text is undefined, null or the empty
    string is drawn with the resolved empty-variant fill color, font size,
    italic flag and text; one whose text is a non-empty string is drawn
    with the resolved non-empty ones and its own text.  The header is read
    off the log of [_addHeader], the cell off the log of [_addRow], where
    it is what follows the last [save]. *)
Theorem empty_variant_styling :
  (forall col st, blank (prop (col_header col) "text") ->
     let h := col_header col in
     let cs := calls (events (_addHeader this col st)) in
     fill_of cs = Some (or_else (prop h "emptyColor") (headerEmptyColor this)) /\
     size_of cs = Some (or_else (prop h "emptyFontSize") (headerEmptyFontSize this)) /\
     slanted cs = truthy (or_else (prop h "emptyItalic") (headerEmptyItalic this)) /\
     text_of cs = Some (or_else (prop h "emptyText") (headerEmptyText this))) /\
  (forall col row st, blank (prop row "text") ->
     let cs := from_last_save (calls (events (_addRow this col row st))) in
     fill_of cs = Some (or_else (prop row "emptyColor") (cellEmptyColor this)) /\
     size_of cs = Some (or_else (prop row "emptyFontSize") (cellEmptyFontSize this)) /\
     slanted cs = truthy (or_else (prop row "emptyItalic") (cellEmptyItalic this)) /\
     text_of cs = Some (or_else (prop row "emptyText") (cellEmptyText this))) /\
  (forall col st, worded (prop (col_header col) "text") ->
     let h := col_header col in
     let cs := calls (events (_addHeader this col st)) in
     fill_of cs = Some (or_else (prop h "color") (headerColor this)) /\
     size_of cs = Some (or_else (prop h "fontSize") (headerFontSize this)) /\
     slanted cs = truthy (or_else (prop h "italic") (headerItalic this)) /\
     text_of cs = Some (prop h "text")) /\
  (forall col row st, worded (prop row "text") ->
     let cs := from_last_save (calls (events (_addRow this col row st))) in
     fill_of cs = Some (or_else (prop row "color") (cellColor this)) /\
     size_of cs = Some (or_else (prop row "fontSize") (cellFontSize this)) /\
     slanted cs = truthy (or_else (prop row "italic") (cellItalic this)) /\
     text_of cs = Some (prop row "text")).
Proof.
  split; [|split; [|split]].
  - intros col st Hb h cs. subst h cs.
    destruct (_addHeader_look this col st) as (Hf & Hs & Hi & Ht & _).
    rewrite (blank_is_empty _ Hb) in *. auto.
  - intros col row st Hb cs. subst cs.
    destruct (_addRow_look col row st) as (Hf & Hs & Hi & Ht & _).
    rewrite (blank_is_empty _ Hb) in *. auto.
  - intros col st Hw h cs. subst h cs.
    destruct (_addHeader_look this col st) as (Hf & Hs & Hi & Ht & _).
    rewrite (worded_not_empty _ Hw) in *. auto.
  - intros col row st Hw cs. subst cs.
    destruct (_addRow_look col row st) as (Hf & Hs & Hi & Ht & _).
    rewrite (worded_not_empty _ Hw) in *. auto.
Qed.

(** C4, as the code has it.  The line gap handed to the text call is the
    font size resolved from the cell's own [fontSize] and the table default
    (never the empty-variant one), times 1.2 for a header and 1.07 for a
    row; it is the drawn font size times that factor whenever the text is
    not empty.  For a row this holds of the cell as [drawCell] sends it
    and as it stands in the log of [_addRow], after the last [save]. *)
Theorem line_gap_of_resolved_fontSize :
  (forall col st,
     gap_of (calls (events (_addHeader this col st)))
     = Some (js_mul (or_else (prop (col_header col) "fontSize")
                       (headerFontSize this)) (VNum 1.2))) /\
  (forall row st,
     gap_of (calls (events (drawCell this row st)))
     = Some (js_mul (or_else (prop row "fontSize") (cellFontSize this))
               (VNum 1.07))) /\
  (forall col st, text_is_empty (prop (col_header col) "text") = false ->
     let cs := calls (events (_addHeader this col st)) in
     gap_of cs = option_map (fun size => js_mul size (VNum 1.2)) (size_of cs)) /\
  (forall row st, text_is_empty (prop row "text") = false ->
     let cs := calls (events (drawCell this row st)) in
     gap_of cs = option_map (fun size => js_mul size (VNum 1.07)) (size_of cs)) /\
  (forall col row st,
     gap_of (from_last_save (calls (events (_addRow this col row st))))
     = Some (js_mul (or_else (prop row "fontSize") (cellFontSize this))
               (VNum 1.07))) /\
  (forall col row st, text_is_empty (prop row "text") = false ->
     let cs := from_last_save (calls (events (_addRow this col row st))) in
     gap_of cs = option_map (fun size => js_mul size (VNum 1.07)) (size_of cs)).
Proof.
  split; [|split; [|split; [|split; [|split]]]].
  - intros col st.
    exact (proj2 (proj2 (proj2 (proj2 (_addHeader_look this col st))))).
  - intros row st.
    exact (proj2 (proj2 (proj2 (proj2 (drawCell_look this row st))))).
  - intros col st He cs. subst cs.
    destruct (_addHeader_look this col st) as (_ & Hs & _ & _ & Hg).
    rewrite Hg, Hs, He. reflexivity.
  - intros row st He cs. subst cs.
    destruct (drawCell_look this row st) as (_ & Hs & _ & _ & Hg).
    rewrite Hg, Hs, He. reflexivity.
  - intros col row st.
    exact (proj2 (proj2 (proj2 (proj2 (_addRow_look col row st))))).
  - intros col row st He cs. subst cs.
    destruct (_addRow_look col row st) as (_ & Hs & _ & _ & Hg).
    rewrite Hg, Hs, He. reflexivity.
Qed.

(** C7. In the render of a table whose columns are [before ++ col ::
    after], laying out [col] starts by setting the tracked page to the
    recorded starting page, switching the document to it, and setting the
    tracked y to the recorded starting y; the tracked x is left as the
    columns before put it.  When [col] is done x is that x plus the width
    resolved for [col], and the remaining columns go on from there.  These
    are the states [addToPDF] goes through: its log is the log of the
    columns before, the switch of page, the log of [col] from the reset
    cursor, the log of the columns after, and the closing assignment to
    [doc.y]; it switches to the recorded starting page once for every
    column; and it ends with the recorded start unchanged, in the cursor
    the last column leaves. *)
Theorem cursor_reset_per_column (before after : list Column) (col : Column)
    (st : state S) :
  columns this = before ++ col :: after ->
  let init := final (recordStart st) in
  let st_i := final (for_each before (layout this) init) in
  let st_s := final (resetCursor st_i) in
  let w := result (_columnWidth this (col_width col) st_s) in
  let st_e := final (_addColumn this col st_s) in
  let st_z := final (for_each after (layout this) st_e) in
  origin init = (js_sub (bufferedPageCount (surface st)) (VNum 1),
                 pageLeft (surface st), doc_y (surface st)) /\
  currentPosition_x init = pageLeft (surface st) /\
  calls (events (resetCursor st_i)) = [Doc.switchToPage (startingPage init)] /\
  currentPage st_s = startingPage init /\
  currentPosition_y st_s = startingPosition_y init /\
  currentPosition_x st_s = currentPosition_x st_i /\
  currentPosition_x st_e = js_add (currentPosition_x st_s) w /\
  final (for_each (columns this) (layout this) init) = st_z /\
  (exists closing : event S,
     called closing = Doc.set_y (js_add (doc_y (surface st_z))
                                   (member (margins this) "bottom")) /\
     events (addToPDF this st)
     = events (for_each before (layout this) init)
         ++ events (resetCursor st_i)
         ++ events (_addColumn this col st_s)
         ++ events (for_each after (layout this) st_e)
         ++ [closing]) /\
  switched_pages (calls (events (addToPDF this st)))
  = repeat (js_sub (bufferedPageCount (surface st)) (VNum 1))
           (length (columns this)) /\
  origin (final (addToPDF this st))
  = (js_sub (bufferedPageCount (surface st)) (VNum 1),
     pageLeft (surface st), doc_y (surface st)) /\
  cursor (final (addToPDF this st)) = cursor st_z.
Proof.
  intros Hcols init st_i st_s w st_e st_z.
  destruct (recordStart_spec st) as (_ & _ & Hc0 & Ho0).
  fold init in Hc0, Ho0.
  destruct (columns_marks this before init) as (_ & Ho). fold st_i in Ho.
  destruct (resetCursor_spec st_i) as (Hcalls & Hc & _). fold st_s in Hc.
  destruct (_addColumn_spec this col st_s) as (_ & Hx & _). fold st_e w in Hx.
  assert (Hpage : startingPage st_i = startingPage init)
    by (unfold origin in Ho; injection Ho; auto).
  assert (Hy : startingPosition_y st_i = startingPosition_y init)
    by (unfold origin in Ho; injection Ho; auto).
  assert (Hfinal : final (for_each (columns this) (layout this) init) = st_z).
  { rewrite Hcols.
    rewrite (proj1 (for_each_app before (col :: after) (layout this) init)).
    fold st_i. rewrite for_each_cons, bind_final.
    unfold layout at 2. rewrite bind_final. reflexivity. }
  assert (Hevents : events (for_each (columns this) (layout this) init)
                    = events (for_each before (layout this) init)
                        ++ events (resetCursor st_i)
                        ++ events (_addColumn this col st_s)
                        ++ events (for_each after (layout this) st_e)).
  { rewrite Hcols.
    rewrite (proj2 (for_each_app before (col :: after) (layout this) init)).
    fold st_i. rewrite for_each_cons, bind_events.
    destruct (layout_events col st_i) as (-> & ->).
    fold st_s st_e. rewrite <- app_assoc. reflexivity. }
  destruct (addToPDF_events st) as (closing & Hclosing & Hlog & Hcur & Hor).
  fold init in Hclosing, Hlog, Hcur, Hor.
  rewrite Hfinal in Hclosing, Hcur, Hor.
  split; [exact Ho0|].
  split; [reflexivity|].
  split; [rewrite Hcalls, Hpage; reflexivity|].
  split; [rewrite <- Hpage; reflexivity|].
  split; [rewrite <- Hy; reflexivity|].
  split; [reflexivity|].
  split; [exact Hx|].
  split; [exact Hfinal|].
  split.
  { exists closing. split; [exact Hclosing|].
    rewrite Hlog, Hevents, <- !app_assoc. reflexivity. }
  split; [apply addToPDF_switched|].
  split; [|exact Hcur].
  rewrite Hor. subst st_z. rewrite <- Hfinal.
  rewrite (proj2 (columns_marks this (columns this) init)). exact Ho0.
Qed.

End RenderPass.

(** C10. The rows' default border color is the constructor option
    [headerColor], or '#ccc' without it, and no other option changes it; a
    bordered row without a borderColor of its own is stroked in that
    color, the last one [_addRow] sets; and since nothing sets a table-wide
    border style, a row whose own borderStyle is unset (or falsy) always
    gets its border, whatever the options: [_addRow] strokes once for it,
    and once more when it repeats the header. *)
Theorem row_border_defaults `{Host} {S : Type} `{Surface S}
    (cols : list Column) (opts : gmap string value) :
  cellBorderColor (constructor cols opts)
  = or_else (prop opts "headerColor") (VStr "#ccc") /\
  (forall k v, k <> "headerColor" ->
     cellBorderColor (constructor cols (<[k:=v]> opts))
     = cellBorderColor (constructor cols opts)) /\
  (forall (col : Column) (row : gmap string value) (st : state S),
     truthy (prop row "borderColor") = false ->
     is_string (prop row "borderStyle") "none" = false ->
     stroke_color_of
       (calls (events (_addRow (constructor cols opts) col row st)))
     = Some (or_else (prop opts "headerColor") (VStr "#ccc"))) /\
  (forall (col : Column) (row : gmap string value) (st : state S),
     truthy (prop row "borderStyle") = false ->
     strokes (calls (events (_addRow (constructor cols opts) col row st)))
     = (if truthy (reply (page_check st) (surface st)) then 1 else 0) + 1).
Proof.
  split; [reflexivity|]. split; [|split].
  - intros k v Hk. unfold constructor. cbn [cellBorderColor]. unfold prop.
    rewrite lookup_insert_ne by exact Hk. reflexivity.
  - intros col row st Hcolor Hstyle.
    rewrite _addRow_stroke_color by assumption. reflexivity.
  - intros col row st Hstyle.
    rewrite _addRow_strokes. unfold cellBorderStyle.
    rewrite (or_else_falsy _ VUndefined Hstyle). reflexivity.
Qed.

(* ===================================================================== *)
(** ** The footer *)
(* ===================================================================== *)

Section FooterFacts.

Context `{Host}.

Lemma defined_test (v : value) : v <> VUndefined -> Footer.defined v = true.
Proof. destruct v; [congruence | reflexivity ..]. Qed.

Lemma footerLines_entries (height : value) (margins : gmap string value)
    (entries : list value) (lineHeight : Z) :
  Forall footer_entry entries ->
  Footer.footerLines height margins entries lineHeight
  = Some (tt, concat (imap (fun i d =>
        entry_calls (prop margins "left")
          (Footer.line_y height margins (lineHeight - Z.of_nat i)) d) entries)).
Proof.
  intros Hall. revert lineHeight.
  induction Hall as [|d entries Hd Hall IH]; intros lineHeight; [reflexivity|].
  rewrite imap_cons. cbn [concat].
  assert (Hshift :
    imap ((fun i d0 => entry_calls (prop margins "left")
             (Footer.line_y height margins (lineHeight - Z.of_nat i)) d0) ∘ S)
         entries
    = imap (fun i d0 => entry_calls (prop margins "left")
             (Footer.line_y height margins (lineHeight - 1 - Z.of_nat i)) d0)
         entries).
  { apply imap_ext. intros i d0 _. cbn [compose].
    replace (lineHeight - Z.of_nat (S i))%Z
      with (lineHeight - 1 - Z.of_nat i)%Z by lia.
    reflexivity. }
  rewrite Hshift, Z.sub_0_r.
  destruct Hd as [(s & ->) | (o & -> & Hv & Hl)].
  - cbn [Footer.footerLines typeof]. cbn [String.eqb Ascii.eqb Bool.eqb].
    rewrite IH. reflexivity.
  - cbn [Footer.footerLines typeof]. cbn [String.eqb Ascii.eqb Bool.eqb].
    rewrite (defined_test _ Hv), (defined_test _ Hl). cbn [andb].
    rewrite IH. reflexivity.
Qed.

(** The loop returns unless an entry is [null]. *)
Lemma footerLines_total (height : value) (margins : gmap string value)
    (entries : list value) (lineHeight : Z) :
  Forall (fun d => d <> VNull) entries ->
  exists sent, Footer.footerLines height margins entries lineHeight
               = Some (tt, sent).
Proof.
  intros Hall. revert lineHeight.
  induction Hall as [|d entries Hd Hall IH]; intros lineHeight.
  - exists []. reflexivity.
  - destruct (IH lineHeight) as (l0 & E0).
    destruct (IH (lineHeight - 1)%Z) as (l1 & E1).
    destruct d as [| |b|f|s|o]; cbn [Footer.footerLines typeof];
      cbn [String.eqb Ascii.eqb Bool.eqb];
      try congruence; try (exists l0; exact E0).
    + rewrite E1. eexists. reflexivity.
    + destruct (Footer.defined _ && Footer.defined _).
      * rewrite E1. eexists. reflexivity.
      * exists l0. exact E0.
Qed.

(** C9. With [n] well-formed entries the footer data is drawn, after the
    font and the size 9 are set, entry by entry: entry [i] at the left
    margin and at y = (height + bottom margin) - (n - 1 - i) * 9, a string
    as one span, a label and a value as the bold "label:" without line
    break followed by the value in Helvetica. *)
Theorem footer_lines_bottom_up (this : Footer.BasicPDFFooter)
    (b : Footer.Builder) :
  Footer.pdfBuilder this = Some b ->
  Forall footer_entry (Footer.data this) ->
  let n := length (Footer.data this) in
  let m := Footer.margins b in
  Footer.addFooterData this
  = Some (tt,
      [Doc.font (VStr "Helvetica"); Doc.fontSize (VNum 9)]
      ++ concat (imap (fun i d =>
           entry_calls (prop m "left")
             (placed_at (Footer.height this) (prop m "bottom") n i) d)
           (Footer.data this))).
Proof.
  intros Hb Hall n m. unfold Footer.addFooterData, Footer.builder_margins.
  rewrite Hb. cbn [Footer.bind Footer.ret Footer.send].
  rewrite (footerLines_entries _ _ _ _ Hall). reflexivity.
Qed.

(** C8. When a page is added and pagination is enabled, the call returns
    (the title being a string and no entry [null]) and the last text it
    draws is "title - page" for a title of non-zero length, the page
    counter itself for the empty title, at the left margin and at
    [height + bottom margin], aligned right within the content width
    [page width - left - right].  Pagination is enabled unless the option
    is exactly [false]. *)
Theorem pagination_line (this : Footer.BasicPDFFooter) (b : Footer.Builder)
    (s : string) :
  Footer.includePagination this = true ->
  Footer.title b = VStr s ->
  Forall (fun d => d <> VNull) (Footer.data this) ->
  let m := Footer.margins b in
  let w := js_sub (js_sub (Footer.page_width b) (prop m "left")) (prop m "right") in
  let h := js_sub (js_sub (Footer.page_height b) (prop m "top")) (prop m "bottom") in
  exists (this' : Footer.BasicPDFFooter) (before : list Doc.call),
    Footer.onPageAdded this b
    = Some (this',
        before ++
        [Doc.fontSize (VNum 9);
         Doc.text (pagination_text (VStr s) (Footer.builder_currentPage b))
           (Some (prop m "left", js_add h (prop m "bottom")))
           (Some (Opt.Make None (Some (VStr "right")) None (Some w) None None))])
    /\ Footer.width this' = w
    /\ Footer.addFooterData this' = Some (tt, before).
Proof.
  intros Hp Ht Hall m w h.
  unfold Footer.onPageAdded.
  set (this' := Footer.Build_BasicPDFFooter _ _ _ _ _ _ _).
  destruct (footerLines_total (Footer.height this') m (Footer.data this)
              (Z.of_nat (length (Footer.data this)) - 1) Hall) as (sent & Hsent).
  assert (Hdata : Footer.addFooterData this'
                  = Some (tt, [Doc.font (VStr "Helvetica"); Doc.fontSize (VNum 9)]
                              ++ sent)).
  { unfold Footer.addFooterData, Footer.builder_margins.
    cbn [Footer.pdfBuilder Footer.data this' Footer.bind Footer.ret Footer.send].
    fold m. rewrite Hsent. reflexivity. }
  exists this', ([Doc.font (VStr "Helvetica"); Doc.fontSize (VNum 9)] ++ sent).
  split; [|split; [reflexivity | exact Hdata]].
  cbn [Footer.bind]. rewrite Hdata.
  cbn [Footer.includePagination this']. rewrite Hp.
  unfold Footer.addPagination, Footer.builder_margins, Footer.title_given.
  cbn [Footer.pdfBuilder Footer.docTitle Footer.currentPage Footer.height
       Footer.width this']. rewrite Ht.
  destruct s as [|c s]; reflexivity.
Qed.

Lemma pagination_default (options : Footer.Options) :
  Footer.includePagination (Footer.constructor options)
  = negb (match Footer.opt_includePagination options with
          | VBool false => true
          | _ => false
          end).
Proof.
  unfold Footer.constructor. cbn [Footer.includePagination].
  destruct (Footer.opt_includePagination options) as [| |[]|f|s|o]; reflexivity.
Qed.

End FooterFacts.

(* ===================================================================== *)
(** ** More of the table engine *)
(* ===================================================================== *)

Section TableMore.

Context `{Host} {S : Type} `{Surface S}.
Variable this : PDFTable.

Ltac run :=
  cbn beta iota zeta delta
    [strokeBorder
     bind when read send ret assign result final events
     surface currentPage currentPosition_x currentPosition_y
     startingPosition_x startingPosition_y startingPage columnWidth
     set_currentPage set_currentPosition set_startingPosition set_startingPage
     set_columnWidth app called returned after cursor origin calls map].

Ltac cases :=
  repeat match goal with
  | |- context [if ?c then _ else _] => destruct c eqn:?
  end.

Ltac split_cases := unfold when; cbv zeta; cases; run.

Ltac walk :=
  repeat (progress (rewrite ?bind_events, ?bind_final, ?bind_result;
    cbn beta iota zeta delta
    [when read send ret assign result final events
     surface currentPage currentPosition_x currentPosition_y
     startingPosition_x startingPosition_y startingPage columnWidth
     set_currentPage set_currentPosition set_startingPosition set_startingPage
     set_columnWidth app called returned after cursor origin])).

(** *** Scoping of the graphics state *)

Lemma nesting_app (d : nat) (l l' : list Doc.call) :
  nesting d (l ++ l') = nesting d l ≫= (fun d' => nesting d' l').
Proof.
  revert d. induction l as [|c l IH]; intros d; [reflexivity|].
  destruct c; cbn [app nesting]; try apply IH; destruct d; try reflexivity; apply IH.
Qed.

Lemma nesting_scoped (d : nat) (l l' : list Doc.call) :
  (forall d0, nesting d0 l = Some d0) ->
  nesting d (l ++ l') = nesting d l'.
Proof. intros Hl. rewrite nesting_app, Hl. reflexivity. Qed.

Lemma _addHeader_nesting col st d :
  nesting d (calls (events (_addHeader this col st))) = Some d.
Proof. unfold _addHeader; split_cases; reflexivity. Qed.

Lemma drawCell_nesting row st d :
  nesting d (calls (events (drawCell this row st))) = Some d.
Proof. unfold drawCell; split_cases; reflexivity. Qed.

Lemma repeatHeaderIfNeeded_nesting col st d :
  nesting d (calls (events (repeatHeaderIfNeeded this col st))) = Some d.
Proof.
  unfold repeatHeaderIfNeeded. walk.
  destruct (truthy _); walk.
  - cbn [app calls map nesting called].
    match goal with
    | |- nesting d (map called (events ?r)) = _ =>
        change (nesting d (calls (events r)) = Some d)
    end.
    apply _addHeader_nesting.
  - reflexivity.
Qed.

Lemma _addRow_nesting col row st d :
  nesting d (calls (events (_addRow this col row st))) = Some d.
Proof.
  rewrite _addRow_calls, nesting_scoped
    by (intros; apply repeatHeaderIfNeeded_nesting).
  apply drawCell_nesting.
Qed.

Lemma rows_nesting col rows st d :
  nesting d (calls (events (for_each rows (fun row => _addRow this col row) st)))
  = Some d.
Proof.
  revert st. induction rows as [|row rows IH]; intros st; [reflexivity|].
  rewrite for_each_calls, nesting_scoped by (intros; apply _addRow_nesting).
  apply IH.
Qed.

Lemma _addColumn_nesting col st d :
  nesting d (calls (events (_addColumn this col st))) = Some d.
Proof.
  rewrite _addColumn_calls, nesting_scoped
    by (intros; apply _addHeader_nesting).
  apply rows_nesting.
Qed.

Lemma columns_nesting cols st d :
  nesting d (calls (events (for_each cols (layout this) st))) = Some d.
Proof.
  revert st. induction cols as [|col cols IH]; intros st; [reflexivity|].
  rewrite for_each_calls, layout_calls. cbn [app nesting].
  rewrite nesting_scoped by (intros; apply _addColumn_nesting).
  apply IH.
Qed.

(** X1. Over a whole table every [save] is closed by a [restore], no
    [restore] comes without its [save], and every shear [transform] lies
    between the two: the italic slant of one cell never reaches what is
    drawn after it. *)
Theorem graphics_state_scoped st :
  nesting 0 (calls (events (addToPDF this st))) = Some 0.
Proof.
  rewrite addToPDF_calls, nesting_scoped by (intros; apply columns_nesting).
  reflexivity.
Qed.

(** *** Texts and their widths *)

Lemma text_widths_app (l l' : list Doc.call) :
  text_widths (l ++ l') = text_widths l ++ text_widths l'.
Proof. apply omap_app. Qed.

Lemma flowed_texts_app (l l' : list Doc.call) :
  flowed_texts (l ++ l') = flowed_texts l ++ flowed_texts l'.
Proof. apply omap_app. Qed.

Lemma placed_texts_app (l l' : list Doc.call) :
  placed_texts (l ++ l') = placed_texts l ++ placed_texts l'.
Proof. apply omap_app. Qed.

Lemma _addHeader_texts col st :
  let cs := calls (events (_addHeader this col st)) in
  text_widths cs = [Some (columnWidth st)] /\
  flowed_texts cs = [] /\
  placed_texts cs = [header_text this (col_header col)].
Proof.
  intros cs. subst cs. unfold header_text, _addHeader.
  split_cases; repeat split; reflexivity.
Qed.

Lemma drawCell_texts row st :
  let cs := calls (events (drawCell this row st)) in
  text_widths cs = [Some (columnWidth st)] /\
  flowed_texts cs = [cell_text this row] /\
  placed_texts cs = [].
Proof.
  intros cs. subst cs. unfold cell_text, drawCell.
  split_cases; repeat split; reflexivity.
Qed.

Lemma repeatHeaderIfNeeded_texts col st :
  let cs := calls (events (repeatHeaderIfNeeded this col st)) in
  Forall (fun w => w = Some (columnWidth st)) (text_widths cs) /\
  flowed_texts cs = [] /\
  Forall (fun t => t = header_text this (col_header col)) (placed_texts cs).
Proof.
  intros cs. subst cs.
  destruct (repeatHeaderIfNeeded_calls this col st) as (st1 & Hcw & ->).
  change (text_widths (page_check st :: ?l)) with (text_widths l).
  change (flowed_texts (page_check st :: ?l)) with (flowed_texts l).
  change (placed_texts (page_check st :: ?l)) with (placed_texts l).
  destruct (truthy _).
  - destruct (_addHeader_texts col st1) as (Hw & Hf & Hp).
    rewrite Hw, Hf, Hp, Hcw. repeat split; repeat constructor.
  - repeat split; constructor.
Qed.

Lemma _addRow_texts col row st :
  let cs := calls (events (_addRow this col row st)) in
  Forall (fun w => w = Some (columnWidth st)) (text_widths cs) /\
  flowed_texts cs = [cell_text this row] /\
  Forall (fun t => t = header_text this (col_header col)) (placed_texts cs).
Proof.
  intros cs. subst cs. rewrite _addRow_calls.
  rewrite text_widths_app, flowed_texts_app, placed_texts_app.
  destruct (repeatHeaderIfNeeded_texts col st) as (Hw & Hf & Hp).
  destruct (drawCell_texts row (final (repeatHeaderIfNeeded this col st)))
    as (Hw' & Hf' & Hp').
  destruct (repeatHeaderIfNeeded_frame this col st) as (_ & _ & Hcw).
  rewrite Hw', Hf', Hp', Hf, Hcw, app_nil_r.
  split; [|split; [reflexivity | exact Hp]].
  apply Forall_app. split; [exact Hw | repeat constructor].
Qed.

Lemma rows_texts col rows st :
  let cs := calls (events (for_each rows (fun row => _addRow this col row) st)) in
  Forall (fun w => w = Some (columnWidth st)) (text_widths cs) /\
  flowed_texts cs = map (cell_text this) rows /\
  Forall (fun t => t = header_text this (col_header col)) (placed_texts cs).
Proof.
  revert st. induction rows as [|row rows IH]; intros st.
  - repeat split; constructor.
  - cbn zeta. rewrite for_each_calls.
    rewrite text_widths_app, flowed_texts_app, placed_texts_app.
    destruct (_addRow_texts col row st) as (Hw & Hf & Hp).
    destruct (IH (final (_addRow this col row st))) as (Hw' & Hf' & Hp').
    destruct (_addRow_frame this col row st) as (_ & _ & Hcw).
    rewrite Hcw in Hw'. rewrite Hf, Hf'.
    split; [apply Forall_app; split; assumption|].
    split; [reflexivity | apply Forall_app; split; assumption].
Qed.

(** X2. Every text of a column, its header, each row and each header
    repeated on a new page, is given the width resolved when the column
    was started. *)
Theorem column_texts_share_width col st :
  Forall (fun w => w = Some (result (_columnWidth this (col_width col) st)))
         (text_widths (calls (events (_addColumn this col st)))).
Proof.
  rewrite _addColumn_calls, text_widths_app.
  set (st1 := set_columnWidth _ st).
  destruct (_addHeader_texts col st1) as (Hw & _).
  destruct (rows_texts col (col_rows col) (final (_addHeader this col st1)))
    as (Hw' & _).
  destruct (_addHeader_frame this col st1) as (_ & _ & Hcw).
  rewrite Hcw in Hw'. rewrite Hw.
  apply Forall_app. split; [repeat constructor | exact Hw'].
Qed.

Lemma _addColumn_texts col st :
  let cs := calls (events (_addColumn this col st)) in
  flowed_texts cs = map (cell_text this) (col_rows col) /\
  head (placed_texts cs) = Some (header_text this (col_header col)) /\
  Forall (fun t => t = header_text this (col_header col)) (placed_texts cs).
Proof.
  intros cs. subst cs. rewrite _addColumn_calls.
  rewrite flowed_texts_app, placed_texts_app.
  set (st1 := set_columnWidth _ st).
  destruct (_addHeader_texts col st1) as (_ & Hf & Hp).
  destruct (rows_texts col (col_rows col) (final (_addHeader this col st1)))
    as (_ & Hf' & Hp').
  rewrite Hf, Hp, Hf'.
  split; [reflexivity | split; [reflexivity|]].
  constructor; [reflexivity | exact Hp'].
Qed.

Lemma columns_texts cols st :
  flowed_texts (calls (events (for_each cols (layout this) st)))
  = concat (map (fun col => map (cell_text this) (col_rows col)) cols).
Proof.
  revert st. induction cols as [|col cols IH]; intros st; [reflexivity|].
  rewrite for_each_calls, layout_calls. cbn [app map concat].
  change (flowed_texts (?c :: ?l)) with (flowed_texts l).
  rewrite flowed_texts_app, IH.
  rewrite (proj1 (_addColumn_texts col (final (resetCursor st)))).
  reflexivity.
Qed.

(** X3. A table draws the cells of its rows, and nothing else, at the
    document's own cursor: column by column and row by row, each cell
    exactly once with its own text, or with the resolved empty text when
    it has none; page breaks add no cell and drop none.  Within a column
    every text drawn at an explicit position is the header's. *)
Theorem rows_drawn_once_in_order :
  (forall st,
     flowed_texts (calls (events (addToPDF this st)))
     = concat (map (fun col => map (cell_text this) (col_rows col))
                   (columns this))) /\
  (forall col st,
     flowed_texts (calls (events (_addColumn this col st)))
     = map (cell_text this) (col_rows col) /\
     head (placed_texts (calls (events (_addColumn this col st))))
     = Some (header_text this (col_header col)) /\
     Forall (fun t => t = header_text this (col_header col))
            (placed_texts (calls (events (_addColumn this col st))))).
Proof.
  split; [|exact _addColumn_texts].
  intros st. rewrite addToPDF_calls, flowed_texts_app, columns_texts.
  apply app_nil_r.
Qed.

(** *** The border under a header *)

(** X4. A header is always underlined: it sends exactly one stroke, which
    ends the chain that follows [restore]: a move to
    [doc.y - fontSize * 0.85] at [doc.x], the resolved header border
    width, a line to [doc.x + columnWidth] at that height, the resolved
    header border color. *)
Theorem header_border col st :
  strokes (calls (events (_addHeader this col st))) = 1 /\
  exists pre tail : list (event S),
    events (_addHeader this col st) = pre ++ tail /\
    strokes (calls pre) = 0 /\
    header_border_tail this (col_header col) (columnWidth st) tail.
Proof.
  split; [apply _addHeader_strokes|].
  unfold header_border_tail, header_size, _addHeader. split_cases.
  all: match goal with
       | |- exists pre tail, [?a; ?b; ?c; ?d; ?t; ?x; ?r; ?e1; ?e2; ?e3; ?e4; ?e5]
                             = _ /\ _ =>
           exists [a; b; c; d; t; x], [r; e1; e2; e3; e4; e5]
       | |- exists pre tail, [?a; ?b; ?c; ?d; ?x; ?r; ?e1; ?e2; ?e3; ?e4; ?e5]
                             = _ /\ _ =>
           exists [a; b; c; d; x], [r; e1; e2; e3; e4; e5]
       end.
  all: split; [reflexivity|]; split; [reflexivity|].
  all: do 6 eexists; repeat split; reflexivity.
Qed.

(** *** Attributes that are never read *)

Lemma prop_insert_ne (o : gmap string value) (k k' : string) (v : value) :
  k <> k' -> prop (<[k:=v]> o) k' = prop o k'.
Proof. intros Hne. unfold prop. rewrite lookup_insert_ne by exact Hne. reflexivity. Qed.

Lemma prop_insert_eq (o : gmap string value) (k : string) (v : value) :
  prop (<[k:=v]> o) k = v.
Proof. unfold prop. rewrite lookup_insert_eq. reflexivity. Qed.

Lemma _addHeader_borderStyle (v : value) (h : gmap string value)
    (rows : list (gmap string value)) (w : value) (st : state S) :
  _addHeader this (Build_Column (<["borderStyle" := v]> h) rows w) st
  = _addHeader this (Build_Column h rows w) st.
Proof.
  unfold _addHeader, _headerLineGap. cbn [col_header].
  rewrite !(prop_insert_ne h "borderStyle") by discriminate. reflexivity.
Qed.

Lemma constructor_headerBorderStyle (v : value) (cols : list Column)
    (opts : gmap string value) :
  constructor cols (<["headerBorderStyle" := v]> opts)
  = with_headerBorderStyle (or_else v (VStr "bottom")) (constructor cols opts).
Proof.
  unfold constructor, with_headerBorderStyle.
  rewrite prop_insert_eq.
  rewrite !(prop_insert_ne opts "headerBorderStyle") by discriminate.
  reflexivity.
Qed.

Lemma _addHeader_headerBorderStyle (v : value) (col : Column) (st : state S) :
  _addHeader (with_headerBorderStyle v this) col st = _addHeader this col st.
Proof. reflexivity. Qed.

Lemma layout_headerBorderStyle (v : value) :
  layout (with_headerBorderStyle v this) = layout this.
Proof. reflexivity. Qed.

Lemma addToPDF_headerBorderStyle (v : value) (st : state S) :
  addToPDF (with_headerBorderStyle v this) st = addToPDF this st.
Proof.
  unfold addToPDF. rewrite layout_headerBorderStyle. reflexivity.
Qed.

End TableMore.

(** X5. The border style of a header is never read: whatever a header's
    own [borderStyle] or the constructor option [headerBorderStyle] is,
    'none' included, the table is rendered the same, border and all. *)
Theorem header_borderStyle_is_ignored `{Host} {S : Type} `{Surface S}
    (v : value) :
  (forall (this : PDFTable) h rows w (st : state S),
     _addHeader this (Build_Column (<["borderStyle" := v]> h) rows w) st
     = _addHeader this (Build_Column h rows w) st) /\
  (forall cols opts (st : state S),
     addToPDF (constructor cols (<["headerBorderStyle" := v]> opts)) st
     = addToPDF (constructor cols opts) st).
Proof.
  split.
  - intros this h rows w st. apply _addHeader_borderStyle.
  - intros cols opts st.
    rewrite constructor_headerBorderStyle. apply addToPDF_headerBorderStyle.
Qed.

Section Irrelevant.

Context `{Host} {S : Type} `{Surface S}.
Variable this : PDFTable.

Lemma _addHeader_without_text (k : string) (v : value)
    (h : gmap string value) (rows : list (gmap string value)) (w : value)
    (st : state S) :
  text_is_empty (prop h "text") = true ->
  k = "color" \/ k = "italic" ->
  _addHeader this (Build_Column (<[k:=v]> h) rows w) st
  = _addHeader this (Build_Column h rows w) st.
Proof.
  intros Hempty Hk. unfold _addHeader, _headerLineGap. cbn [col_header].
  cbv zeta.
  destruct Hk as [-> | ->];
    rewrite !(prop_insert_ne h _ "text") by discriminate;
    rewrite Hempty; lazy iota;
    rewrite ?(prop_insert_ne h _ "align"), ?(prop_insert_ne h _ "borderColor"),
      ?(prop_insert_ne h _ "borderWidth"), ?(prop_insert_ne h _ "font"),
      ?(prop_insert_ne h _ "fontSize"), ?(prop_insert_ne h _ "emptyColor"),
      ?(prop_insert_ne h _ "emptyFontSize"), ?(prop_insert_ne h _ "emptyItalic"),
      ?(prop_insert_ne h _ "emptyText"), ?(prop_insert_ne h _ "allowWrap")
      by discriminate;
    reflexivity.
Qed.

Lemma _addHeader_with_text (k : string) (v : value)
    (h : gmap string value) (rows : list (gmap string value)) (w : value)
    (st : state S) :
  text_is_empty (prop h "text") = false ->
  k = "emptyColor" \/ k = "emptyFontSize" \/ k = "emptyItalic" \/ k = "emptyText" ->
  _addHeader this (Build_Column (<[k:=v]> h) rows w) st
  = _addHeader this (Build_Column h rows w) st.
Proof.
  intros Hempty Hk. unfold _addHeader, _headerLineGap. cbn [col_header].
  cbv zeta.
  destruct Hk as [-> | [-> | [-> | ->]]];
    rewrite !(prop_insert_ne h _ "text") by discriminate;
    rewrite Hempty; lazy iota;
    rewrite ?(prop_insert_ne h _ "align"), ?(prop_insert_ne h _ "borderColor"),
      ?(prop_insert_ne h _ "borderWidth"), ?(prop_insert_ne h _ "font"),
      ?(prop_insert_ne h _ "fontSize"), ?(prop_insert_ne h _ "color"),
      ?(prop_insert_ne h _ "italic"), ?(prop_insert_ne h _ "allowWrap")
      by discriminate;
    reflexivity.
Qed.

Lemma drawCell_without_text (k : string) (v : value)
    (row : gmap string value) (st : state S) :
  text_is_empty (prop row "text") = true ->
  k = "color" \/ k = "italic" ->
  drawCell this (<[k:=v]> row) st = drawCell this row st.
Proof.
  intros Hempty Hk. unfold drawCell, _rowLineGap. cbv zeta.
  destruct Hk as [-> | ->];
    rewrite !(prop_insert_ne row _ "text") by discriminate;
    rewrite Hempty; lazy iota;
    rewrite ?(prop_insert_ne row _ "align"), ?(prop_insert_ne row _ "borderColor"),
      ?(prop_insert_ne row _ "borderStyle"),
      ?(prop_insert_ne row _ "borderWidth"), ?(prop_insert_ne row _ "font"),
      ?(prop_insert_ne row _ "fontSize"), ?(prop_insert_ne row _ "emptyColor"),
      ?(prop_insert_ne row _ "emptyFontSize"), ?(prop_insert_ne row _ "emptyItalic"),
      ?(prop_insert_ne row _ "emptyText"), ?(prop_insert_ne row _ "allowWrap")
      by discriminate;
    reflexivity.
Qed.

Lemma drawCell_with_text (k : string) (v : value)
    (row : gmap string value) (st : state S) :
  text_is_empty (prop row "text") = false ->
  k = "emptyColor" \/ k = "emptyFontSize" \/ k = "emptyItalic" \/ k = "emptyText" ->
  drawCell this (<[k:=v]> row) st = drawCell this row st.
Proof.
  intros Hempty Hk. unfold drawCell, _rowLineGap. cbv zeta.
  destruct Hk as [-> | [-> | [-> | ->]]];
    rewrite !(prop_insert_ne row _ "text") by discriminate;
    rewrite Hempty; lazy iota;
    rewrite ?(prop_insert_ne row _ "align"), ?(prop_insert_ne row _ "borderColor"),
      ?(prop_insert_ne row _ "borderStyle"),
      ?(prop_insert_ne row _ "borderWidth"), ?(prop_insert_ne row _ "font"),
      ?(prop_insert_ne row _ "fontSize"), ?(prop_insert_ne row _ "color"),
      ?(prop_insert_ne row _ "italic"), ?(prop_insert_ne row _ "allowWrap")
      by discriminate;
    reflexivity.
Qed.

(** X6. A cell without text is drawn the same whatever its own [color] and
    [italic] are, and a cell with text the same whatever its [emptyColor],
    [emptyFontSize], [emptyItalic] and [emptyText] are; so for headers and
    for rows. *)
Theorem unused_variant_is_irrelevant (k : string) (v : value) :
  (k = "color" \/ k = "italic" ->
   (forall h rows w st, text_is_empty (prop h "text") = true ->
      _addHeader this (Build_Column (<[k:=v]> h) rows w) st
      = _addHeader this (Build_Column h rows w) st) /\
   (forall col row st, text_is_empty (prop row "text") = true ->
      _addRow this col (<[k:=v]> row) st = _addRow this col row st)) /\
  (k = "emptyColor" \/ k = "emptyFontSize" \/ k = "emptyItalic"
   \/ k = "emptyText" ->
   (forall h rows w st, text_is_empty (prop h "text") = false ->
      _addHeader this (Build_Column (<[k:=v]> h) rows w) st
      = _addHeader this (Build_Column h rows w) st) /\
   (forall col row st, text_is_empty (prop row "text") = false ->
      _addRow this col (<[k:=v]> row) st = _addRow this col row st)).
Proof.
  split; intros Hk; split.
  - intros h rows w st He. apply _addHeader_without_text; assumption.
  - intros col row st He. unfold _addRow, bind.
    rewrite drawCell_without_text by assumption. reflexivity.
  - intros h rows w st He. apply _addHeader_with_text; assumption.
  - intros col row st He. unfold _addRow, bind.
    rewrite drawCell_with_text by assumption. reflexivity.
Qed.

End Irrelevant.

(** *** Widths outside the documented range, and the empty table *)

(** A number below zero is below one. *)
Lemma ltb_zero_one (f : float) :
  PrimFloat.ltb f 0 = true -> PrimFloat.ltb f 1 = true.
Proof.
  rewrite !FloatAxioms.ltb_spec. unfold SpecFloat.SFltb.
  change (Prim2SF 0) with (SpecFloat.S754_zero false).
  change (Prim2SF 1) with (SpecFloat.S754_finite false 4503599627370496 (-52)).
  destruct (Prim2SF f) as [s|s| |s m e]; try destruct s;
    lazy beta iota delta [SpecFloat.SFcompare]; congruence.
Qed.

(** X7. With two columns or more, nothing guards a width that is not a
    number from 0 on: a negative width is taken as a fraction and resolves
    to [contentWidth * width], and NaN is returned as it is. *)
Theorem columnWidth_unguarded `{Host} {S : Type} `{Surface S}
    (this : PDFTable) (st : state S) :
  2 <= length (columns this) ->
  (forall f, PrimFloat.ltb f 0 = true ->
     result (_columnWidth this (VNum f) st)
     = js_mul (contentWidth (surface st)) (VNum f)) /\
  result (_columnWidth this (VNum PrimFloat.nan) st) = VNum PrimFloat.nan.
Proof.
  intros Hn. unfold _columnWidth, width.
  assert (Hlt : (length (columns this) <? 2)%nat = false)
    by (apply Nat.ltb_ge; lia).
  rewrite Hlt. split.
  - intros f Hf. simpl. unfold lt_num. simpl.
    rewrite (ltb_zero_one f Hf). reflexivity.
  - reflexivity.
Qed.

(** X8. A table without columns draws nothing: all it sends is the
    assignment that moves [doc.y] down by the bottom margin, 30 when the
    options give no margins. *)
Theorem empty_table `{Host} {S : Type} `{Surface S}
    (opts : gmap string value) (st : state S) :
  (forall this : PDFTable, columns this = [] ->
     calls (events (addToPDF this st))
     = [Doc.set_y (js_add (doc_y (surface st))
                     (member (margins this) "bottom"))]) /\
  (truthy (prop opts "margins") = false ->
     calls (events (addToPDF (constructor [] opts) st))
     = [Doc.set_y (js_add (doc_y (surface st)) (VNum 30))]).
Proof.
  assert (Hgen : forall this : PDFTable, columns this = [] ->
            calls (events (addToPDF this st))
            = [Doc.set_y (js_add (doc_y (surface st))
                            (member (margins this) "bottom"))]).
  { intros this Hcols. rewrite addToPDF_calls, Hcols. reflexivity. }
  split; [exact Hgen|].
  intros Hm. rewrite Hgen by reflexivity.
  unfold constructor. cbn [margins].
  rewrite (or_else_falsy _ _ Hm). reflexivity.
Qed.

(* ===================================================================== *)
(** ** More of the footer *)
(* ===================================================================== *)

Section FooterMore.

Context `{Host}.

Lemma footerLines_skipping (height : value) (margins : gmap string value)
    (entries : list value) (lineHeight : Z) :
  Forall (fun d => d <> VNull) entries ->
  Footer.footerLines height margins entries lineHeight
  = Some (tt, concat (imap (fun i d =>
      if drawn_entry d then
        entry_calls (prop margins "left")
          (Footer.line_y height margins
             (lineHeight
              - Z.of_nat (length (filter (fun d0 => drawn_entry d0 = true)
                                         (take i entries))))) d
      else []) entries)).
Proof.
  intros Hall. revert lineHeight.
  induction Hall as [|d entries Hd Hall IH]; intros lineHeight; [reflexivity|].
  rewrite imap_cons. cbn [concat take filter length].
  change (filter (fun d0 => drawn_entry d0 = true) []) with (@nil value).
  cbn [length]. rewrite Z.sub_0_r.
  assert (Hshift : forall k : Z,
    (if drawn_entry d then (lineHeight - 1)%Z else lineHeight) = k ->
    imap ((fun i d1 =>
            if drawn_entry d1 then
              entry_calls (prop margins "left")
                (Footer.line_y height margins
                   (lineHeight
                    - Z.of_nat (length (filter (fun d0 => drawn_entry d0 = true)
                                          (take i (d :: entries)))))) d1
            else []) ∘ S) entries
    = imap (fun i d1 =>
            if drawn_entry d1 then
              entry_calls (prop margins "left")
                (Footer.line_y height margins
                   (k - Z.of_nat (length (filter (fun d0 => drawn_entry d0 = true)
                                            (take i entries))))) d1
            else []) entries).
  { intros k Hk. apply imap_ext. intros i d1 _. cbn [compose take].
    destruct (drawn_entry d1); [|reflexivity].
    f_equal. f_equal. subst k.
    destruct (drawn_entry d) eqn:Ed.
    - rewrite filter_cons_True by exact Ed. cbn [length]. lia.
    - rewrite filter_cons_False by (rewrite Ed; discriminate). lia. }
  destruct d as [| |b|f|s|o]; try congruence;
    cbn [Footer.footerLines typeof]; cbn [String.eqb Ascii.eqb Bool.eqb];
    cbn [drawn_entry] in *.
  - rewrite IH, (Hshift lineHeight eq_refl). reflexivity.
  - rewrite IH, (Hshift lineHeight eq_refl). reflexivity.
  - rewrite IH, (Hshift lineHeight eq_refl). reflexivity.
  - rewrite IH, (Hshift (lineHeight - 1)%Z eq_refl). reflexivity.
  - destruct (Footer.defined _ && Footer.defined _) eqn:Ed.
    + rewrite IH, (Hshift (lineHeight - 1)%Z eq_refl). reflexivity.
    + rewrite IH, (Hshift lineHeight eq_refl). reflexivity.
Qed.

(** X9. Whatever the entries are, none being [null]: the strings and the
    objects with a label and a value are drawn, each one line of 9 below
    the one drawn before it, the first of them [n - 1] lines above
    [height + bottom margin], [n] counting all the entries; every other
    entry is skipped and takes no line, so that each skipped entry leaves
    the stack one line higher above the bottom margin. *)
Theorem footer_lines_skip (this : Footer.BasicPDFFooter) (b : Footer.Builder) :
  Footer.pdfBuilder this = Some b ->
  Forall (fun d => d <> VNull) (Footer.data this) ->
  let m := Footer.margins b in
  Footer.addFooterData this
  = Some (tt,
      [Doc.font (VStr "Helvetica"); Doc.fontSize (VNum 9)]
      ++ concat (imap (fun i d =>
           if drawn_entry d then
             entry_calls (prop m "left")
               (js_sub (js_add (Footer.height this) (prop m "bottom"))
                  (js_mul (VNum (num_of_Z (line_of (Footer.data this) i)))
                     (VNum 9))) d
           else [])
           (Footer.data this))).
Proof.
  intros Hb Hall m. unfold Footer.addFooterData, Footer.builder_margins.
  rewrite Hb. cbn [Footer.bind Footer.ret Footer.send].
  rewrite (footerLines_skipping _ _ _ _ Hall). reflexivity.
Qed.

(** *** When the footer raises *)

Lemma footerLines_null (height : value) (margins : gmap string value)
    (entries : list value) (lineHeight : Z) :
  In VNull entries ->
  Footer.footerLines height margins entries lineHeight = None.
Proof.
  revert lineHeight. induction entries as [|d entries IH]; intros lineHeight Hin.
  - destruct Hin.
  - destruct Hin as [-> | Hin]; [reflexivity|].
    destruct d as [| |b|f|s|o]; cbn [Footer.footerLines typeof];
      cbn [String.eqb Ascii.eqb Bool.eqb]; try reflexivity;
      try (destruct (Footer.defined _ && Footer.defined _));
      cbn [Footer.bind Footer.send]; rewrite ?IH by exact Hin; reflexivity.
Qed.

Lemma null_or_none (l : list value) :
  In VNull l \/ Forall (fun d => d <> VNull) l.
Proof.
  induction l as [|d l [IH | IH]].
  - right. constructor.
  - left. right. exact IH.
  - destruct d; try (right; constructor; [discriminate | exact IH]).
    left. left. reflexivity.
Qed.

Lemma onPageAdded_paged (this : Footer.BasicPDFFooter) (b : Footer.Builder) :
  Footer.onPageAdded this b
  = Footer.bind (Footer.addFooterData (paged this b))
      (fun _ => Footer.bind
         (if Footer.includePagination this
          then Footer.addPagination (paged this b) else Footer.ret tt)
         (fun _ => Footer.ret (paged this b))).
Proof. reflexivity. Qed.

Lemma addFooterData_paged (this : Footer.BasicPDFFooter) (b : Footer.Builder) :
  (In VNull (Footer.data this) ->
   Footer.addFooterData (paged this b) = None) /\
  (Forall (fun d => d <> VNull) (Footer.data this) ->
   exists sent, Footer.addFooterData (paged this b) = Some (tt, sent)).
Proof.
  unfold Footer.addFooterData, Footer.builder_margins.
  cbn [Footer.pdfBuilder paged Footer.data Footer.height
       Footer.bind Footer.ret Footer.send].
  split.
  - intros Hin. rewrite footerLines_null by exact Hin. reflexivity.
  - intros Hall.
    destruct (footerLines_total
                (js_sub (js_sub (Footer.page_height b)
                           (prop (Footer.margins b) "top"))
                        (prop (Footer.margins b) "bottom"))
                (Footer.margins b) (Footer.data this)
                (Z.of_nat (length (Footer.data this)) - 1) Hall) as (sent & ->).
    eexists. reflexivity.
Qed.

Lemma addPagination_paged (this : Footer.BasicPDFFooter) (b : Footer.Builder) :
  Footer.addPagination (paged this b) = None <-> nullish (Footer.title b) = true.
Proof.
  unfold Footer.addPagination, Footer.builder_margins, Footer.title_given.
  cbn [Footer.pdfBuilder paged Footer.docTitle Footer.bind Footer.ret
       Footer.send].
  destruct (Footer.title b); cbn; split; congruence.
Qed.

(** X10. Adding a page raises exactly when an entry of the data is [null]
    or, pagination being enabled, the builder's title is [undefined] or
    [null]; otherwise it returns. *)
Theorem onPageAdded_raises (this : Footer.BasicPDFFooter) (b : Footer.Builder) :
  Footer.onPageAdded this b = None <->
  In VNull (Footer.data this) \/
  (Footer.includePagination this = true /\ nullish (Footer.title b) = true).
Proof.
  rewrite onPageAdded_paged.
  destruct (addFooterData_paged this b) as (Hnull & Hok).
  destruct (addPagination_paged this b) as (Hp1 & Hp2).
  split.
  - intros Hnone. destruct (null_or_none (Footer.data this)) as [Hin | Hall];
      [left; exact Hin|].
    destruct (Hok Hall) as (sent & Hsent). rewrite Hsent in Hnone.
    cbn [Footer.bind] in Hnone.
    destruct (Footer.includePagination this); [|discriminate Hnone].
    right. split; [reflexivity|]. apply Hp1.
    destruct (Footer.addPagination (paged this b)) as [[[] l]|];
      [discriminate Hnone | reflexivity].
  - intros [Hin | (Hip & Ht)].
    + rewrite (Hnull Hin). reflexivity.
    + rewrite Hip, (Hp2 Ht).
      destruct (Footer.addFooterData (paged this b)) as [[[] l]|]; reflexivity.
Qed.

(** X11. Pagination is disabled by the option [includePagination] being the
    boolean false and by nothing else; a footer with pagination disabled
    sends, for a page, the commands of its data and no more, whatever the
    title is. *)
Theorem pagination_off :
  (forall options,
     Footer.includePagination (Footer.constructor options) = false
     <-> Footer.opt_includePagination options = VBool false) /\
  (forall this b,
     Footer.includePagination this = false ->
     Forall (fun d => d <> VNull) (Footer.data this) ->
     exists sent,
       Footer.onPageAdded this b = Some (paged this b, sent) /\
       Footer.addFooterData (paged this b) = Some (tt, sent)).
Proof.
  split.
  - intros options. rewrite pagination_default.
    destruct (Footer.opt_includePagination options) as [| |[]|f|s|o];
      cbn; split; congruence.
  - intros this b Hip Hall. rewrite onPageAdded_paged, Hip.
    destruct (proj2 (addFooterData_paged this b) Hall) as (sent & Hsent).
    exists sent. rewrite Hsent. cbn [Footer.bind Footer.ret].
    rewrite !app_nil_r. split; reflexivity.
Qed.

(** X12. What the footer sends for a page depends on its data, on its
    pagination flag and on the builder only, not on what an earlier page
    left in it: the page number 1 set by the constructor is never drawn,
    and adding the same page again sends the same commands. *)
Theorem footer_keeps_no_page_state (b : Footer.Builder) :
  (forall this1 this2,
     Footer.data this1 = Footer.data this2 ->
     Footer.includePagination this1 = Footer.includePagination this2 ->
     Footer.onPageAdded this1 b = Footer.onPageAdded this2 b) /\
  (forall this this' sent,
     Footer.onPageAdded this b = Some (this', sent) ->
     Footer.onPageAdded this' b = Some (this', sent)).
Proof.
  assert (Hsame : forall this1 this2,
     Footer.data this1 = Footer.data this2 ->
     Footer.includePagination this1 = Footer.includePagination this2 ->
     Footer.onPageAdded this1 b = Footer.onPageAdded this2 b).
  { intros this1 this2 Hd Hp. rewrite !onPageAdded_paged.
    unfold paged. rewrite Hd, Hp. reflexivity. }
  split; [exact Hsame|].
  intros this this' sent Hrun.
  assert (Hthis : this' = paged this b).
  { rewrite onPageAdded_paged in Hrun.
    destruct (Footer.addFooterData (paged this b)) as [[[] l]|];
      [|discriminate Hrun].
    cbn [Footer.bind] in Hrun.
    destruct (if Footer.includePagination this
              then Footer.addPagination (paged this b) else Footer.ret tt)
      as [[[] l']|]; [|discriminate Hrun].
    cbn [Footer.bind Footer.ret] in Hrun. congruence. }
  rewrite <- Hrun. subst this'. apply Hsame; reflexivity.
Qed.

End FooterMore.

Section Runs.

#[local] Existing Instance Sample.host.
#[local] Existing Instance Sample.paper_surface.

Lemma columnWidth_resolution_witness :
  let st := Sample.fresh (Sample.Paper 0 0 1 700 36 500) in
  let col := Build_Column (Sample.cell "ID") [Sample.cell "1"] VUndefined in
  let one := constructor [col] ∅ in
  let two := constructor [col; col] ∅ in
  result (_columnWidth one (VNum 150) st) = VNum 500 /\
  result (_columnWidth two VNull st) = VNum 250 /\
  result (_columnWidth two (VNum 0.25) st) = VNum 125 /\
  result (_columnWidth two (VNum 1) st) = VNum 1.
Proof.
  intros st col one two.
  destruct (columnWidth_resolution one (VNum 150) st) as (H1 & _).
  destruct (columnWidth_resolution two VNull st) as (_ & H2 & _).
  destruct (columnWidth_resolution two (VNum 0.25) st) as (_ & _ & H3 & _).
  destruct (columnWidth_resolution two (VNum 1) st) as (_ & _ & _ & H4).
  split; [|split; [|split]].
  - rewrite H1 by (simpl; lia). reflexivity.
  - rewrite H2 by (simpl; auto). reflexivity.
  - rewrite (H3 ltac:(simpl; lia) _ eq_refl eq_refl eq_refl). reflexivity.
  - rewrite (H4 ltac:(simpl; lia) _ eq_refl eq_refl). reflexivity.
Defined.

(** On a full page the row "3" of the ids column is preceded by its check,
    answered yes, and by the header at the top of the new page. *)
Lemma header_repetition_witness :
  let st := Sample.midway Sample.full in
  marks (events (_addRow Sample.table Sample.ids (Sample.cell "3") st))
  = [MCheck true (VNum 0); MHeader (VNum 36) (VNum 0); MRow] /\
  currentPage (final (_addRow Sample.table Sample.ids (Sample.cell "3") st))
  = VNum 1 /\
  currentPosition_y (final (_addRow Sample.table Sample.ids (Sample.cell "3") st))
  = VNum 0.
Proof.
  intros st.
  destruct (header_repetition Sample.table) as (_ & _ & _ & Hyes & _).
  destruct (Hyes Sample.ids (Sample.cell "3") st eq_refl)
    as (Hmarks & Hpage & _ & Hy).
  split; [exact Hmarks | split; [exact Hpage | exact Hy]].
Defined.

(** Midway down a page the cell "Bob" is all of its row's log after the
    page check; on a full page the header comes first and the cell is
    still read after the last [save]. *)
Lemma empty_variant_styling_witness :
  let st := Sample.midway Sample.letter in
  fill_of (calls (events (_addHeader Sample.table Sample.untitled st)))
  = Some (VStr "#FFFFFF") /\
  size_of (calls (events (_addHeader Sample.table Sample.untitled st)))
  = Some (VNum 10) /\
  text_of (calls (events (_addHeader Sample.table Sample.untitled st)))
  = Some (VStr "none") /\
  text_of (from_last_save (calls (events
             (_addRow Sample.table Sample.names (Sample.cell "Bob") st))))
  = Some (VStr "Bob") /\
  text_of (from_last_save (calls (events
             (_addRow Sample.table Sample.names (Sample.cell "Bob")
                (Sample.midway Sample.full)))))
  = Some (VStr "Bob").
Proof.
  intros st.
  destruct (empty_variant_styling Sample.table) as (Hblank & _ & _ & Hworded).
  assert (Hnone : blank (prop (col_header Sample.untitled) "text"))
    by (right; right; vm_compute; reflexivity).
  destruct (Hblank Sample.untitled st Hnone) as (Hfill & Hsize & _ & Htext).
  assert (Hbob : worded (prop (Sample.cell "Bob") "text"))
    by (exists "Bob"; split; [vm_compute; reflexivity | discriminate]).
  destruct (Hworded Sample.names (Sample.cell "Bob") st Hbob)
    as (_ & _ & _ & Htext').
  destruct (Hworded Sample.names (Sample.cell "Bob")
              (Sample.midway Sample.full) Hbob) as (_ & _ & _ & Htext'').
  split; [exact Hfill | split; [exact Hsize | split; [exact Htext |]]].
  split; [exact Htext' | exact Htext''].
Defined.

(** The header without text is drawn at size 10, its own empty-variant
    size, and its line gap is 14 * 1.2, not 10 * 1.2. *)
Lemma line_gap_counterexample :
  let st := Sample.midway Sample.letter in
  let cs := calls (events (_addHeader Sample.table Sample.untitled st)) in
  size_of cs = Some (VNum 10) /\
  gap_of cs = Some (js_mul (VNum 14) (VNum 1.2)) /\
  gap_of cs <> option_map (fun size => js_mul size (VNum 1.2)) (size_of cs).
Proof.
  vm_compute. split; [reflexivity | split; [reflexivity|]].
  intros E.
  apply (f_equal (fun o => match o with
                           | Some (VNum f) => PrimFloat.eqb f 12
                           | _ => false
                           end)) in E.
  vm_compute in E. discriminate E.
Qed.

Lemma line_gap_of_resolved_fontSize_witness :
  let st := Sample.midway Sample.letter in
  gap_of (calls (events (_addHeader Sample.table Sample.names st)))
  = option_map (fun size => js_mul size (VNum 1.2))
      (size_of (calls (events (_addHeader Sample.table Sample.names st)))) /\
  gap_of (calls (events (drawCell Sample.table (Sample.cell "Bob") st)))
  = option_map (fun size => js_mul size (VNum 1.07))
      (size_of (calls (events (drawCell Sample.table (Sample.cell "Bob") st)))) /\
  gap_of (from_last_save (calls (events
            (_addRow Sample.table Sample.names (Sample.cell "Bob") st))))
  = option_map (fun size => js_mul size (VNum 1.07))
      (size_of (from_last_save (calls (events
                  (_addRow Sample.table Sample.names (Sample.cell "Bob") st))))).
Proof.
  intros st.
  destruct (line_gap_of_resolved_fontSize Sample.table)
    as (_ & _ & Hh & Hr & _ & Hr').
  split; [exact (Hh Sample.names st eq_refl)|].
  split; [exact (Hr (Sample.cell "Bob") st eq_refl)
         | exact (Hr' Sample.names (Sample.cell "Bob") st eq_refl)].
Defined.



(** The second column of the sample table starts on the recorded page and
    at the recorded y, 250 to the right of the first, and ends a quarter
    of the content width further; the render switches to page 0 twice. *)
Lemma cursor_reset_per_column_witness :
  let init := final (recordStart (Sample.fresh Sample.letter)) in
  let st_i := final (for_each [Sample.ids] (layout Sample.table) init) in
  let st_s := final (resetCursor st_i) in
  currentPage st_s = VNum 0 /\
  currentPosition_y st_s = VNum 0 /\
  currentPosition_x st_s = VNum 286 /\
  currentPosition_x (final (_addColumn Sample.table Sample.names st_s))
  = VNum 411 /\
  switched_pages
    (calls (events (addToPDF Sample.table (Sample.fresh Sample.letter))))
  = [VNum 0; VNum 0] /\
  origin (final (addToPDF Sample.table (Sample.fresh Sample.letter)))
  = (VNum 0, VNum 36, VNum 0).
Proof.
  intros init st_i st_s.
  destruct (cursor_reset_per_column Sample.table [Sample.ids] [] Sample.names
              (Sample.fresh Sample.letter) eq_refl)
    as (_ & _ & _ & Hpage & Hy & Hx & Hx' & _ & _ & Hswitched & Horigin & _).
  fold init st_i st_s in Hpage, Hy, Hx, Hx'.
  split; [rewrite Hpage; vm_compute; reflexivity|].
  split; [rewrite Hy; vm_compute; reflexivity|].
  split; [rewrite Hx; vm_compute; reflexivity|].
  split; [rewrite Hx'; vm_compute; reflexivity|].
  split; [rewrite Hswitched; vm_compute; reflexivity|].
  rewrite Horigin. vm_compute. reflexivity.
Defined.

Lemma pagination_line_witness :
  exists (this' : Footer.BasicPDFFooter) (before : list Doc.call),
    Footer.onPageAdded Sample.footer Sample.report
    = Some (this',
        before ++
        [Doc.fontSize (VNum 9);
         Doc.text (VStr "Report - 3") (Some (VNum 36, VNum 756))
           (Some (Opt.Make None (Some (VStr "right")) None (Some (VNum 540))
                    None None))]).
Proof.
  assert (Hdata : Forall (fun d => d <> VNull) (Footer.data Sample.footer))
    by (repeat constructor; discriminate).
  destruct (pagination_line Sample.footer Sample.report "Report"
              eq_refl eq_refl Hdata) as (this' & before & Hrun & _).
  exists this', before. rewrite Hrun. vm_compute. reflexivity.
Defined.

Lemma footer_lines_bottom_up_witness :
  Footer.addFooterData
    (Footer.Build_BasicPDFFooter true (VNum 3) (Footer.data Sample.footer)
       (VNum 540) (VNum 720) (VStr "Report") (Some Sample.report))
  = Some (tt,
      [Doc.font (VStr "Helvetica"); Doc.fontSize (VNum 9);
       Doc.text (VStr "Generated 2024-01-01") (Some (VNum 36, VNum 747)) None;
       Doc.font (VStr "Helvetica-Bold");
       Doc.text (VStr "Total:") (Some (VNum 36, VNum 756))
         (Some (Opt.Make (Some (VBool false)) None None None None None));
       Doc.font (VStr "Helvetica");
       Doc.text (VStr "42") None None]).
Proof.
  assert (Hdata : Forall footer_entry (Footer.data Sample.footer)).
  { constructor; [left; eexists; reflexivity|].
    constructor; [|constructor].
    right. exists Sample.total.
    split; [reflexivity | split; vm_compute; discriminate]. }
  rewrite (footer_lines_bottom_up
             (Footer.Build_BasicPDFFooter true (VNum 3)
                (Footer.data Sample.footer) (VNum 540) (VNum 720)
                (VStr "Report") (Some Sample.report))
             Sample.report eq_refl Hdata).
  vm_compute. reflexivity.
Defined.

Lemma row_border_defaults_witness :
  let st := Sample.midway Sample.letter in
  let red := <["headerColor" := VStr "#f00"]> ∅ in
  stroke_color_of
    (calls (events (_addRow (constructor [Sample.ids] red) Sample.ids
                      (Sample.cell "1") st)))
  = Some (VStr "#f00") /\
  strokes
    (calls (events (_addRow
       (constructor [Sample.ids] (<["cellBorderStyle" := VStr "none"]> ∅))
       Sample.ids (Sample.cell "1") st))) = 1.
Proof.
  intros st red.
  destruct (row_border_defaults [Sample.ids] red) as (_ & _ & Hcolor & _).
  destruct (row_border_defaults (S := Sample.paper) [Sample.ids]
              (<["cellBorderStyle" := VStr "none"]> ∅))
    as (_ & _ & _ & Hstyle).
  split; [rewrite (Hcolor Sample.ids (Sample.cell "1") st eq_refl eq_refl);
          reflexivity
         | rewrite (Hstyle Sample.ids (Sample.cell "1") st eq_refl);
           vm_compute; reflexivity].
Defined.

End Runs.

Section MoreRuns.

#[local] Existing Instance Sample.host.
#[local] Existing Instance Sample.paper_surface.

(** The header without text keeps its look when it is given a color, and
    the row "Bob" keeps its when it is given an empty text. *)
Lemma unused_variant_is_irrelevant_witness :
  let st := Sample.midway Sample.letter in
  _addHeader Sample.table
    (Build_Column (<["color" := VStr "#f00"]> (col_header Sample.untitled))
       [] VUndefined) st
  = _addHeader Sample.table
      (Build_Column (col_header Sample.untitled) [] VUndefined) st /\
  _addRow Sample.table Sample.names
    (<["emptyText" := VStr "-"]> (Sample.cell "Bob")) st
  = _addRow Sample.table Sample.names (Sample.cell "Bob") st.
Proof.
  intros st.
  destruct (unused_variant_is_irrelevant Sample.table "color" (VStr "#f00"))
    as (Hcolor & _).
  destruct (unused_variant_is_irrelevant (S := Sample.paper) Sample.table
              "emptyText" (VStr "-")) as (_ & Hempty).
  split.
  - apply (proj1 (Hcolor (or_introl eq_refl))). vm_compute. reflexivity.
  - apply (proj2 (Hempty (or_intror (or_intror (or_intror eq_refl))))).
    vm_compute. reflexivity.
Defined.

Lemma columnWidth_unguarded_witness :
  result (_columnWidth Sample.table (VNum (-0.5)) (Sample.fresh Sample.letter))
  = VNum (-250) /\
  result (_columnWidth Sample.table (VNum PrimFloat.nan)
            (Sample.fresh Sample.letter))
  = VNum PrimFloat.nan.
Proof.
  assert (Hn : 2 <= length (columns Sample.table)) by (vm_compute; lia).
  destruct (columnWidth_unguarded Sample.table (Sample.fresh Sample.letter) Hn)
    as (Hneg & Hnan).
  split; [rewrite (Hneg (-0.5)%float eq_refl); reflexivity | exact Hnan].
Defined.

Lemma empty_table_witness :
  calls (events (addToPDF (constructor [] ∅) (Sample.fresh Sample.letter)))
  = [Doc.set_y (VNum 30)].
Proof.
  destruct (empty_table ∅ (Sample.fresh Sample.letter)) as (_ & Hdefault).
  rewrite Hdefault by reflexivity. reflexivity.
Defined.

(** Between the line and the total, a number: it is skipped, and the line
    stays two lines above the bottom. *)
Lemma footer_lines_skip_witness :
  Footer.addFooterData
    (Footer.Build_BasicPDFFooter true (VNum 3)
       [VStr "Generated 2024-01-01"; VNum 7; VObj Sample.total]
       (VNum 540) (VNum 720) (VStr "Report") (Some Sample.report))
  = Some (tt,
      [Doc.font (VStr "Helvetica"); Doc.fontSize (VNum 9);
       Doc.text (VStr "Generated 2024-01-01") (Some (VNum 36, VNum 738)) None;
       Doc.font (VStr "Helvetica-Bold");
       Doc.text (VStr "Total:") (Some (VNum 36, VNum 747))
         (Some (Opt.Make (Some (VBool false)) None None None None None));
       Doc.font (VStr "Helvetica");
       Doc.text (VStr "42") None None]).
Proof.
  rewrite (footer_lines_skip
             (Footer.Build_BasicPDFFooter true (VNum 3)
                [VStr "Generated 2024-01-01"; VNum 7; VObj Sample.total]
                (VNum 540) (VNum 720) (VStr "Report") (Some Sample.report))
             Sample.report eq_refl)
    by (repeat constructor; discriminate).
  vm_compute. reflexivity.
Defined.

Lemma onPageAdded_raises_witness :
  Footer.onPageAdded
    (Footer.constructor (Footer.Build_Options VUndefined (Footer.Array [VNull])))
    Sample.report
  = None /\
  Footer.onPageAdded Sample.footer Sample.report <> None.
Proof.
  split.
  - apply (proj2 (onPageAdded_raises _ Sample.report)).
    left. left. reflexivity.
  - intros Hnone.
    apply (proj1 (onPageAdded_raises Sample.footer Sample.report)) in Hnone.
    destruct Hnone as [[Hin | [Hin | []]] | (_ & Htitle)]; discriminate.
Defined.

Lemma pagination_off_witness :
  let quiet :=
    Footer.constructor
      (Footer.Build_Options (VBool false) (Footer.Single (VStr "Draft"))) in
  Footer.includePagination quiet = false /\
  exists sent,
    Footer.onPageAdded quiet Sample.report = Some (paged quiet Sample.report, sent) /\
    Footer.addFooterData (paged quiet Sample.report) = Some (tt, sent).
Proof.
  intros quiet. destruct pagination_off as (Hflag & Hrun).
  assert (Hoff : Footer.includePagination quiet = false)
    by (apply (proj2 (Hflag _)); reflexivity).
  split; [exact Hoff|].
  apply (Hrun quiet Sample.report Hoff). repeat constructor; discriminate.
Defined.

Lemma footer_keeps_no_page_state_witness :
  Footer.onPageAdded (paged Sample.footer Sample.report) Sample.report
  = Footer.onPageAdded Sample.footer Sample.report.
Proof.
  apply (proj1 (footer_keeps_no_page_state Sample.report)); reflexivity.
Defined.

End MoreRuns.
